(** * KMZ/KML processor: the upload callback [process_files] of [app.py]

    A shallow embedding of the Dash callback and of the Python library
    functions it relies on, followed by the properties of the processing
    run: input validation, dispatch by extension, grouping keys, the
    running identifier counter, the statement text and the download
    bundle.

    Conventions of the embedding.
    - A Python [str] is a [string]; every character stands for a code
      point below 256.
    - The file system is a finite map from POSIX paths to file contents.
    - A Python call either returns or raises; effects on the file system
      survive a raise.  Computations live in the monad [M]. *)

From Stdlib Require Import ZArith Ascii String List Lia Bool.
From stdpp Require Import base option list list_numbers strings pretty gmap fin_maps.

Import ListNotations.
Set Warnings "-register-all".
Local Open Scope string_scope.
Local Open Scope Z_scope.

(** ** Python text primitives *)

Module Py.

(** [str.isspace] on code points below 256: TAB..CR, FS..US, space,
    NEL (0x85) and the no-break space (0xA0). *)
Definition isspace (c : ascii) : bool :=
  let n := nat_of_ascii c in
  ((9 <=? n) && (n <=? 13) || (28 <=? n) && (n <=? 32)
   || (n =? 133) || (n =? 160))%nat.

(** Truthiness of a [str]: the empty string is falsy. *)
Definition nonempty (s : string) : bool :=
  match s with EmptyString => false | String _ _ => true end.

(** [s.lstrip()], [s.rstrip()] and [s.strip()] with no argument. *)
Fixpoint lstrip (s : string) : string :=
  match s with
  | String c s' => if isspace c then lstrip s' else s
  | EmptyString => EmptyString
  end.

Fixpoint rstrip (s : string) : string :=
  match s with
  | String c s' =>
      let r := rstrip s' in
      if isspace c && negb (nonempty r) then EmptyString else String c r
  | EmptyString => EmptyString
  end.

Definition strip (s : string) : string := rstrip (lstrip s).

(** [s.split()] with no argument: the maximal runs of non-whitespace
    characters, in order.  [cur] is the run being read. *)
Fixpoint split_ws_from (cur : string) (s : string) : list string :=
  match s with
  | String c s' =>
      if isspace c
      then (if nonempty cur then cur :: split_ws_from EmptyString s'
            else split_ws_from EmptyString s')
      else split_ws_from (cur ++ String c EmptyString) s'
  | EmptyString => if nonempty cur then [cur] else []
  end.

Definition split_ws (s : string) : list string := split_ws_from EmptyString s.

(** [s.split(sep)] for a one-character separator: never empty. *)
Fixpoint split (sep : ascii) (s : string) : list string :=
  match s with
  | String c s' =>
      if Ascii.eqb c sep then EmptyString :: split sep s'
      else match split sep s' with
           | h :: t => String c h :: t
           | [] => [String c EmptyString]
           end
  | EmptyString => [EmptyString]
  end.

(** [s.replace(a, b)] for one-character [a] and [b]. *)
Fixpoint replace (a b : ascii) (s : string) : string :=
  match s with
  | String c s' => String (if Ascii.eqb c a then b else c) (replace a b s')
  | EmptyString => EmptyString
  end.

(** [s.lower()] on code points below 256: A-Z, and the Latin-1 capitals
    0xC0..0xDE except the multiplication sign 0xD7. *)
Definition lower_char (c : ascii) : ascii :=
  let n := nat_of_ascii c in
  if ((65 <=? n) && (n <=? 90)
      || (192 <=? n) && (n <=? 222) && negb (n =? 215))%nat
  then ascii_of_nat (n + 32) else c.

Fixpoint lower (s : string) : string :=
  match s with
  | String c s' => String (lower_char c) (lower s')
  | EmptyString => EmptyString
  end.

(** [s.endswith(suffix)]. *)
Definition endswith (s suffix : string) : bool :=
  let n := String.length s in
  let k := String.length suffix in
  (k <=? n)%nat && String.eqb (String.substring (n - k) k s) suffix.

Definition startswith (s pre : string) : bool := String.prefix pre s.

(** Every character of [s] satisfies [p]. *)
Fixpoint all_chars (p : ascii -> bool) (s : string) : bool :=
  match s with
  | String c s' => p c && all_chars p s'
  | EmptyString => true
  end.

End Py.

(** ** [os.path] on POSIX *)

Module OsPath.

Definition sep : ascii := "/"%char.
Definition extsep : ascii := "."%char.

(** [os.path.join(a, b)]: an absolute [b] discards [a]; a separator is
    added unless [a] is empty or already ends with one. *)
Definition join (a b : string) : string :=
  if Py.startswith b "/" then b
  else if negb (Py.nonempty a) || Py.endswith a "/" then a ++ b
  else a ++ "/" ++ b.

(** [p.rfind(c)] as an option: the index of the last occurrence. *)
Fixpoint rfind (c : ascii) (p : string) : option nat :=
  match p with
  | String d p' =>
      match rfind c p' with
      | Some i => Some (S i)
      | None => if Ascii.eqb d c then Some 0%nat else None
      end
  | EmptyString => None
  end.

(** The loop of [genericpath._splitext] that skips leading dots of the
    last component: is some character in [[i, i + n)] not a dot? *)
Fixpoint has_non_dot (p : string) (i n : nat) : bool :=
  match n with
  | O => false
  | S n' =>
      match String.get i p with
      | Some c => if Ascii.eqb c extsep then has_non_dot p (S i) n' else true
      | None => true
      end
  end.

(** [os.path.splitext(p)]: the extension starts at the last dot of the
    last path component, unless that component has only dots before it. *)
Definition splitext (p : string) : string * string :=
  let filenameIndex :=
    match rfind sep p with Some i => S i | None => 0%nat end in
  match rfind extsep p with
  | Some dotIndex =>
      if (filenameIndex <=? dotIndex)%nat
         && has_non_dot p filenameIndex (dotIndex - filenameIndex)
      then (String.substring 0 dotIndex p,
            String.substring dotIndex (String.length p - dotIndex) p)
      else (p, EmptyString)
  | None => (p, EmptyString)
  end.

End OsPath.

(** ** Exceptions, results and the file-system monad *)

(** The exception classes that can reach the callback.  All of them
    derive from [Exception], so [except Exception] catches each one. *)
Inductive exn : Type :=
  | IndexError
  | ValueError
  | AttributeError
  | BinasciiError
  | FileNotFoundError
  | ParseError
  | UnsupportedContainer
  | MalformedMarkup
  | OtherError (msg : string).

Inductive result (A : Type) : Type :=
  | Ok (a : A)
  | Raise (e : exn).
Arguments Ok {A} a.
Arguments Raise {A} e.

(** Files by path; a file's contents are its bytes. *)
Abbreviation FS := (gmap string string).

(** A computation reads and writes the file system and returns or
    raises; what it wrote before raising stays written. *)
Definition M (A : Type) : Type := FS -> FS * result A.

Definition ret {A} (a : A) : M A := fun fs => (fs, Ok a).
Definition raise {A} (e : exn) : M A := fun fs => (fs, Raise e).
Definition bind {A B} (m : M A) (k : A -> M B) : M B :=
  fun fs =>
    match m fs with
    | (fs', Ok a) => k a fs'
    | (fs', Raise e) => (fs', Raise e)
    end.
Definition lift {A} (r : result A) : M A := fun fs => (fs, r).
Definition get_fs : M FS := fun fs => (fs, Ok fs).
Definition modify_fs (f : FS -> FS) : M unit := fun fs => (f fs, Ok tt).

Declare Scope run_scope.
Delimit Scope run_scope with run.
Notation "x <- c ;; k" := (bind c (fun x => k))
  (at level 100, c at next level, right associativity) : run_scope.
Notation "c ;; k" := (bind c (fun _ => k))
  (at level 100, right associativity) : run_scope.
Local Open Scope run_scope.

(** [open(path, "wb").write(data)]: the file at [path] is created or
    replaced.  The store is flat, so the [open] is taken to succeed; on
    disk it does for a path whose directory exists and whose last
    component can name a file, which for the paths of line 114 is what
    [upload_name_ok] below asks of the uploaded name. *)
Definition write_file (path data : string) : M unit :=
  modify_fs (fun fs => <[path := data]> fs).

(** [open(path).read()]: a missing file raises. *)
Definition read_file (path : string) : M string :=
  fun fs => match fs !! path with
            | Some data => (fs, Ok data)
            | None => (fs, Raise FileNotFoundError)
            end.

(** [shutil.move(src, dst)] for a file: [dst] is replaced; moving a file
    onto itself leaves it in place. *)
Definition shutil_move (src dst : string) : M unit :=
  data <- read_file src;;
  modify_fs (fun fs => <[dst := data]> (delete src fs)).

(** [os.listdir(d)], restricted to the regular files directly inside
    [d]; the order is the one the directory happens to give.  Paths are
    compared as they are written ([..] and doubled slashes are not
    resolved), and the store holds regular files only, so a
    sub-directory of [d] is never listed. *)
Definition entry_name (d path : string) : option string :=
  let pre := d ++ "/" in
  if Py.startswith path pre
  then let n := String.substring (String.length pre)
                  (String.length path - String.length pre) path in
       if Py.nonempty n && negb (bool_decide (OsPath.sep ∈ String.list_ascii_of_string n))
       then Some n else None
  else None.

Definition listdir (d : string) (fs : FS) : list string :=
  omap (fun kv => entry_name d (fst kv)) (map_to_list fs).

(** ** XML trees as [xml.etree.ElementTree] presents them *)

Inductive element : Type :=
  | Element (tag : string) (text : option string) (children : list element).

Definition tag_of (e : element) : string :=
  match e with Element t _ _ => t end.
Definition text_of (e : element) : option string :=
  match e with Element _ t _ => t end.

(** The proper descendants of an element in document order. *)
Fixpoint descendants (e : element) : list element :=
  match e with
  | Element _ _ cs =>
      (fix go (l : list element) : list element :=
         match l with
         | [] => []
         | c :: l' => (c :: descendants c ++ go l')%list
         end) cs
  end.

Definition kml_ns : string := "http://www.opengis.net/kml/2.2".
Definition qname (local : string) : string := "{" ++ kml_ns ++ "}" ++ local.

(** [e.findall('.//kml:<local>', ns)] *)
Definition findall (local : string) (e : element) : list element :=
  List.filter (fun d => String.eqb (tag_of d) (qname local)) (descendants e).

(** ** The library functions the callback calls *)

(** [F] stands for Python's [float].  The functions below are those of
    the Python standard library; they are kept abstract.
    - [b64decode]: [base64.b64decode], raising [binascii.Error];
    - [ET_fromstring]: the XML parser behind [ET.parse], raising
      [ET.ParseError];
    - [py_float]: [float(s)], raising [ValueError];
    - [zip_members]: the members of a zip container, by name;
    - [ET_tostring]: the serialisation behind [tree.write]. *)
Class Runtime (F : Type) : Type := {
  b64decode : string -> result string;
  ET_fromstring : string -> result element;
  py_float : string -> result F;
  zip_members : string -> result (list (string * string));
  ET_tostring : element -> string
}.

(** ** The functions imported from [processor]

    [from processor import ...]: the five stages of the pipeline.  The
    callback below is written against this interface.  The text that
    [extract_coordinates_from_kml] prints is returned as the list of its
    writes to [sys.stdout], in the order they were made. *)
Class Processor : Type := {
  extract_kml_from_kmz : string -> string -> M string;
  delete_files_in_folder : string -> M unit;
  remove_cdata_from_kml : string -> M string;
  extract_coordinates_from_kml : string -> Z -> string -> M (Z * list string);
  merge_kml_files : string -> string -> Z -> M unit
}.

(** ** [app.py] *)

Definition KMZ_DIR : string := "kmz".
Definition KML_DIR : string := "kml".

(** *** The grouping key (lines 128-130) *)

Definition is_hex (c : ascii) : bool :=
  let n := nat_of_ascii c in
  ((48 <=? n) && (n <=? 57) || (97 <=? n) && (n <=? 102)
   || (65 <=? n) && (n <=? 70))%nat.

(** One position of the pattern: a hexadecimal digit or a hyphen. *)
Inductive atom : Type := Hex | Dash.

Definition atom_ok (a : atom) (c : ascii) : bool :=
  match a with
  | Hex => is_hex c
  | Dash => Ascii.eqb c "-"%char
  end.

(** [[0-9a-fA-F]{8}-[0-9a-fA-F]{4}-[0-9a-fA-F]{4}-[0-9a-fA-F]{4}-[0-9a-fA-F]{12}] *)
Definition uuid_pattern : list atom :=
  (repeat Hex 8 ++ [Dash] ++ repeat Hex 4 ++ [Dash] ++ repeat Hex 4
   ++ [Dash] ++ repeat Hex 4 ++ [Dash] ++ repeat Hex 12)%list.

(** The pattern matched at the start of [s]: the matched text. *)
Fixpoint match_here (pat : list atom) (s : string) : option string :=
  match pat with
  | [] => Some EmptyString
  | a :: pat' =>
      match s with
      | String c s' =>
          if atom_ok a c
          then option_map (String c) (match_here pat' s')
          else None
      | EmptyString => None
      end
  end.

(** [re.search(pat, s)]: the match at the leftmost position that has
    one; [group(0)] is the matched text. *)
Fixpoint re_search (pat : list atom) (s : string) : option string :=
  match match_here pat s with
  | Some m => Some m
  | None =>
      match s with
      | String _ s' => re_search pat s'
      | EmptyString => None
      end
  end.

Definition working_street_id (filename city : string) : string :=
  match re_search uuid_pattern filename with
  | Some uuid_match => uuid_match
  | None => Py.replace " " "_" city
  end.

(** *** The city (lines 97-99) *)

(** [custom_city.strip() if custom_city else selected_city]; both
    component values are [None] or a string. *)
Definition resolve_city (selected_city custom_city : option string)
  : option string :=
  match custom_city with
  | Some c => if Py.nonempty c then Some (Py.strip c) else selected_city
  | None => selected_city
  end.

(** Truthiness of [None], a string, a list. *)
Definition truthy_str (o : option string) : bool :=
  match o with Some s => Py.nonempty s | None => false end.

Definition truthy_list {A} (o : option (list A)) : bool :=
  match o with Some (_ :: _) => true | _ => false end.

(** *** What the callback returns *)

Record alert : Type := { message : string; color : string }.

(** Line 95. *)
Definition EmptyUpload : alert :=
  {| message := "Please upload at least one KMZ or KML file.";
     color := "warning" |}.

(** Line 99. *)
Definition NoInputSelected : alert :=
  {| message := "Please select or enter a city name.";
     color := "warning" |}.

(** Line 205.  The message starts with a check-mark emoji (U+2705) and a
    space in the source; characters here are code points below 256, so
    the two are left out.  The properties below refer to the alert by
    name and never to its text. *)
Definition ProcessingComplete : alert :=
  {| message := "Processing complete! Your files are ready.";
     color := "success" |}.

Record row (F : Type) : Type :=
  { lat : F; lon : F; file : string }.
Arguments lat {F} _.
Arguments lon {F} _.
Arguments file {F} _.

(** ["polygon": [polygon_coords]]: one ring of [[lon, lat]] pairs. *)
Record polygon_entry (F : Type) : Type :=
  { name : string; polygon : list (list (F * F)) }.
Arguments name {F} _.
Arguments polygon {F} _.

Record trace (F : Type) : Type :=
  { trace_name : string; lons : list F; lats : list F }.
Arguments trace_name {F} _.
Arguments lons {F} _.
Arguments lats {F} _.

Record figure (F : Type) : Type :=
  { traces : list (trace F); center_lat : F; center_lon : F }.
Arguments traces {F} _.
Arguments center_lat {F} _.
Arguments center_lon {F} _.

(** The zip archive as its members [(arcname, bytes)], and the name the
    browser saves it under. *)
Record bundle : Type :=
  { members : list (string * string); download_name : string }.

(** The five outputs.  A rejected run returns the alert and four empty
    strings. *)
Inductive response (F : Type) : Type :=
  | Rejected (a : alert)
  | Completed (a : alert) (sql : string) (table : list (row F))
      (map_fig : option (figure F)) (download : bundle).
Arguments Rejected {F} a.
Arguments Completed {F} a sql table map_fig download.

(** The locals of the loop. *)
Record run_state (F : Type) : Type := {
  count : Z;
  all_coords : list (row F);
  polygons : list (polygon_entry F);
  sql_output_all : list string
}.
Arguments count {F} _.
Arguments all_coords {F} _.
Arguments polygons {F} _.
Arguments sql_output_all {F} _.

(** A loop whose body may raise: the state reached, and the exception
    that ended the loop early, if one did. *)
Fixpoint try_fold {S A : Type} (body : S -> A -> S * option exn)
    (l : list A) (s : S) : S * option exn :=
  match l with
  | [] => (s, None)
  | a :: l' =>
      match body s a with
      | (s', None) => try_fold body l' s'
      | (s', Some e) => (s', Some e)
      end
  end.

(** Lines 111-112: [content.split(',')[1]], then [base64.b64decode]. *)
Definition decode_upload {F} {RT : Runtime F} (content : string)
  : result string :=
  match Py.split "," content !! 1%nat with
  | Some data => b64decode data
  | None => Raise IndexError
  end.

Section Callback.

Context {F : Type} {RT : Runtime F} {P : Processor}.

(** *** Reading coordinates for the table and the map (lines 138-159) *)

(** Lines 148-152, one coordinate group.  The state is [all_coords] and
    the [polygon_coords] of the coordinates element being read. *)
Definition coord_step (filename : string)
    (s : list (row F) * list (F * F)) (coord : string)
  : (list (row F) * list (F * F)) * option exn :=
  match Py.split "," coord with
  | p0 :: p1 :: _ =>
      match py_float p0 with
      | Raise e => (s, Some e)
      | Ok lon_v =>
          match py_float p1 with
          | Raise e => (s, Some e)
          | Ok lat_v =>
              ((fst s ++ [{| lat := lat_v; lon := lon_v; file := filename |}],
                snd s ++ [(lon_v, lat_v)])%list, None)
          end
      end
  | _ => (s, None)
  end.

(** Lines 145-157, one coordinates element.  The state is [all_coords]
    and [polygons]; [coords_element.text] may be [None]. *)
Definition coords_element_step (filename : string)
    (s : list (row F) * list (polygon_entry F)) (coords_element : element)
  : (list (row F) * list (polygon_entry F)) * option exn :=
  match text_of coords_element with
  | None => (s, Some AttributeError)
  | Some text =>
      let coords_text := Py.strip text in
      match try_fold (coord_step filename) (Py.split_ws coords_text)
              (fst s, []) with
      | ((all', polygon_coords), None) =>
          ((all',
            match polygon_coords with
            | [] => snd s
            | _ :: _ =>
                (snd s ++ [{| name := filename;
                              polygon := [polygon_coords] |}])%list
            end), None)
      | ((all', _), Some e) => ((all', snd s), Some e)
      end
  end.

(** Lines 143-144. *)
Definition placemark_step (filename : string)
    (s : list (row F) * list (polygon_entry F)) (placemark : element)
  : (list (row F) * list (polygon_entry F)) * option exn :=
  try_fold (coords_element_step filename) (findall "coordinates" placemark) s.

(** Lines 138-159: whatever is raised inside the [try] is swallowed by
    [except Exception: continue]; rows appended before it stay. *)
Definition read_coordinates (filename cleaned_kml : string) (fs : FS)
    (s : list (row F) * list (polygon_entry F))
  : list (row F) * list (polygon_entry F) :=
  match fs !! cleaned_kml with
  | None => s
  | Some data =>
      match ET_fromstring data with
      | Raise _ => s
      | Ok root =>
          fst (try_fold (placemark_step filename) (findall "Placemark" root) s)
      end
  end.

(** *** One uploaded file (lines 110-159) *)

(** Lines 126-159, for a file that has a markup path. *)
Definition process_markup (city : string) (st : run_state F)
    (filename kml_path : string) : M (run_state F) :=
  cleaned_kml <- remove_cdata_from_kml kml_path;;
  let wsid := working_street_id filename city in
  r <- extract_coordinates_from_kml cleaned_kml (count st) wsid;;
  fs <- get_fs;;
  let s := read_coordinates filename cleaned_kml fs
             (all_coords st, polygons st) in
  ret {| count := fst r;
         all_coords := fst s;
         polygons := snd s;
         sql_output_all :=
           (sql_output_all st ++ [String.concat "" (snd r)])%list |}.

(** Lines 110-124, then [process_markup]. *)
Definition process_file (city : string) (st : run_state F)
    (upload : string * string) : M (run_state F) :=
  let content := fst upload in
  let filename := snd upload in
  let ext := Py.lower (snd (OsPath.splitext filename)) in
  decoded <- lift (decode_upload content);;
  let file_path := OsPath.join KMZ_DIR filename in
  write_file file_path decoded;;
  if String.eqb ext ".kmz" then
    kml_path <- extract_kml_from_kmz file_path KML_DIR;;
    process_markup city st filename kml_path
  else if String.eqb ext ".kml" then
    let kml_path := OsPath.join KML_DIR filename in
    shutil_move file_path kml_path;;
    process_markup city st filename kml_path
  else ret st.

(** The [for] loop of line 109 over [zip(contents, filenames)]. *)
Fixpoint process_uploads (city : string) (st : run_state F)
    (uploads : list (string * string)) : M (run_state F) :=
  match uploads with
  | [] => ret st
  | upload :: rest =>
      st' <- process_file city st upload;;
      process_uploads city st' rest
  end.

(** *** The bundle (lines 164-169) *)

Fixpoint zip_write (names : list string) : M (list (string * string)) :=
  match names with
  | [] => ret []
  | f :: rest =>
      if Py.endswith f ".kml" then
        data <- read_file (OsPath.join KML_DIR f);;
        more <- zip_write rest;;
        ret ((f, data) :: more)
      else zip_write rest
  end.

(** *** The map (lines 181-202) *)

(** [lons, lats = zip( *ring )]: an empty ring has nothing to unpack. *)
Definition ring_trace (poly_name : string) (ring : list (F * F))
  : result (trace F) :=
  match ring with
  | [] => Raise ValueError
  | _ :: _ => Ok {| trace_name := poly_name;
                    lons := List.map fst ring;
                    lats := List.map snd ring |}
  end.

Fixpoint ring_traces (poly_name : string) (rings : list (list (F * F)))
  : result (list (trace F)) :=
  match rings with
  | [] => Ok []
  | ring :: rest =>
      match ring_trace poly_name ring with
      | Raise e => Raise e
      | Ok t =>
          match ring_traces poly_name rest with
          | Raise e => Raise e
          | Ok ts => Ok (t :: ts)
          end
      end
  end.

Fixpoint polygon_traces (polys : list (polygon_entry F))
  : result (list (trace F)) :=
  match polys with
  | [] => Ok []
  | poly :: rest =>
      match ring_traces (name poly) (polygon poly) with
      | Raise e => Raise e
      | Ok ts =>
          match polygon_traces rest with
          | Raise e => Raise e
          | Ok ts' => Ok (ts ++ ts')%list
          end
      end
  end.

Definition build_map (polys : list (polygon_entry F))
  : result (option (figure F)) :=
  match polys with
  | [] => Ok None
  | first_poly :: _ =>
      match polygon_traces polys with
      | Raise e => Raise e
      | Ok ts =>
          match polygon first_poly with
          | ((first_lon, first_lat) :: _) :: _ =>
              Ok (Some {| traces := ts;
                          center_lat := first_lat;
                          center_lon := first_lon |})
          | _ => Raise IndexError
          end
      end
  end.

(** *** The callback (lines 93-212) *)

Definition initial_state : run_state F :=
  {| count := 30000; all_coords := []; polygons := [];
     sql_output_all := [] |}.

Definition process_files (n_clicks : Z) (contents : option (list string))
    (filenames : list string) (selected_city custom_city : option string)
  : M (response F) :=
  if negb (truthy_list contents) then ret (Rejected EmptyUpload)
  else
    let city := resolve_city selected_city custom_city in
    match city with
    | None | Some EmptyString => ret (Rejected NoInputSelected)
    | Some city =>
        delete_files_in_folder KMZ_DIR;;
        delete_files_in_folder KML_DIR;;
        st <- process_uploads city initial_state
                (combine (default [] contents) filenames);;
        let merged_kml_path := OsPath.join KML_DIR "merged_output.kml" in
        merge_kml_files KML_DIR merged_kml_path (count st);;
        fs <- get_fs;;
        zipped <- zip_write (listdir KML_DIR fs);;
        map_fig <- lift (build_map (polygons st));;
        ret (Completed ProcessingComplete
               (String.concat "" (sql_output_all st))
               (all_coords st)
               map_fig
               {| members := zipped;
                  download_name := city ++ "_kml_output.zip" |})
    end.

End Callback.

(** ** The [processor] module, from its specification

    [processor.py] is imported by [app.py]; the definitions of this
    section follow the written specification of its five functions. *)

(** Modelled from the spec: the statements written by
    [extract_coordinates_from_kml], which is missing; section 6, a
    statement carries identifier, grouping key, longitude, latitude. *)
Record statement (F : Type) : Type := {
  stmt_id : Z;
  stmt_key : string;
  stmt_lon : F;
  stmt_lat : F
}.
Arguments stmt_id {F} _.
Arguments stmt_key {F} _.
Arguments stmt_lon {F} _.
Arguments stmt_lat {F} _.

(** Modelled from the spec: the text of a statement line (section 6
    calls its shape illustrative) and the rewriting that unwraps escaped
    sections (section 4.3), both left open there. *)
Class TextShape (F : Type) : Type := {
  render_statement : statement F -> string;
  unwrap_escaped : string -> string
}.

Module Spec.
Section Spec.

Context {F : Type} {RT : Runtime F} {TS : TextShape F}.

(** Modelled from the spec: [delete_files_in_folder] is missing; section
    4.1, clearDirectory deletes every regular file directly inside the
    directory and is a no-op on an empty one. *)
Definition delete_files_in_folder (d : string) : M unit :=
  modify_fs (filter (fun kv => entry_name d (fst kv) = None)).

(** Modelled from the spec: the base name of an archive member, used
    by [extract_kml_from_kmz] (section 4.2). *)
Definition basename (p : string) : string :=
  match OsPath.rfind OsPath.sep p with
  | Some i => String.substring (S i) (String.length p - S i) p
  | None => p
  end.

(** Modelled from the spec: [extract_kml_from_kmz] is missing; section
    4.2, extractMarkup opens the archive, finds the member whose name
    ends in the markup extension, writes its bytes to the output
    directory under the member's base name and returns that path; it
    fails with UnsupportedContainer if there is no such member. *)
Definition extract_kml_from_kmz (archive_path output_dir : string)
  : M string :=
  data <- read_file archive_path;;
  ms <- lift (zip_members data);;
  match List.find (fun m => Py.endswith (fst m) ".kml") ms with
  | Some m =>
      let out := OsPath.join output_dir (basename (fst m)) in
      write_file out (snd m);;
      ret out
  | None => raise UnsupportedContainer
  end.

(** Modelled from the spec: [remove_cdata_from_kml] is missing; section
    4.3, sanitize reads the document text, unwraps the escaped sections,
    rewrites the file and returns its path; a document that cannot be
    parsed fails with MalformedMarkup. *)
Definition remove_cdata_from_kml (markup_path : string) : M string :=
  text <- read_file markup_path;;
  let cleaned := unwrap_escaped text in
  match ET_fromstring cleaned with
  | Raise _ => raise MalformedMarkup
  | Ok _ => write_file markup_path cleaned;; ret markup_path
  end.

(** Modelled from the spec: the body of [extract_coordinates_from_kml],
    which is missing; section 4.4, one coordinate group: with at least
    two numeric fields, field 0 is the longitude and field 1 the
    latitude, the identifier is the current counter, and the counter
    moves on by one; any other group is skipped. *)
Definition emit_group (key : string) (s : list (statement F) * Z)
    (group : string) : list (statement F) * Z :=
  match Py.split "," group with
  | f0 :: f1 :: _ =>
      match py_float f0, py_float f1 with
      | Ok lon_v, Ok lat_v =>
          ((fst s ++ [{| stmt_id := snd s; stmt_key := key;
                         stmt_lon := lon_v; stmt_lat := lat_v |}])%list,
           snd s + 1)
      | _, _ => s
      end
  | _ => s
  end.

(** Modelled from the spec: section 4.4, one coordinates element: its
    text split on whitespace; empty or missing text gives no group. *)
Definition emit_coordinates (key : string) (s : list (statement F) * Z)
    (coords_element : element) : list (statement F) * Z :=
  fold_left (emit_group key)
    (Py.split_ws (default EmptyString (text_of coords_element))) s.

(** Modelled from the spec: section 4.4, the document: Placemark
    order, then the coordinates elements beneath each Placemark, then
    group order. *)
Definition emit_document (key : string) (counter : Z) (root : element)
  : list (statement F) * Z :=
  fold_left
    (fun s placemark =>
       fold_left (emit_coordinates key) (findall "coordinates" placemark) s)
    (findall "Placemark" root) ([], counter).

(** Modelled from the spec: [extract_coordinates_from_kml] is missing;
    section 4.4, extractAndEmit parses the document (MalformedMarkup if
    it cannot), writes one statement line per coordinate tuple and
    returns the next free identifier. *)
Definition extract_coordinates_from_kml (cleaned_path : string)
    (counter : Z) (key : string) : M (Z * list string) :=
  text <- read_file cleaned_path;;
  match ET_fromstring text with
  | Raise _ => raise MalformedMarkup
  | Ok root =>
      let s := emit_document key counter root in
      ret (snd s, List.map render_statement (fst s))
  end.

(** Modelled from the spec: [merge_kml_files] is missing; section 4.5,
    merge parses every file of the directory that ends in the markup
    extension, skips those that do not parse, and writes one root that
    holds all their Placemark elements; the counter is not used. *)
Definition merge_kml_files (markup_dir output_path : string)
    (final_counter : Z) : M unit :=
  fs <- get_fs;;
  let placemarks :=
    flat_map (fun f =>
                if Py.endswith f ".kml" then
                  match fs !! OsPath.join markup_dir f with
                  | Some data =>
                      match ET_fromstring data with
                      | Ok root => findall "Placemark" root
                      | Raise _ => []
                      end
                  | None => []
                  end
                else [])
      (listdir markup_dir fs) in
  write_file output_path
    (ET_tostring (Element (qname "kml") None placemarks)).

End Spec.
End Spec.

#[local] Instance spec_processor {F : Type} {RT : Runtime F}
    {TS : TextShape F} : Processor := {|
  extract_kml_from_kmz := Spec.extract_kml_from_kmz;
  delete_files_in_folder := Spec.delete_files_in_folder;
  remove_cdata_from_kml := Spec.remove_cdata_from_kml;
  extract_coordinates_from_kml := Spec.extract_coordinates_from_kml;
  merge_kml_files := Spec.merge_kml_files
|}.

(** ** A sample environment

    A small instance of the library functions, used to run the callback
    on concrete uploads: three documents, their base64 text, one
    archive, and decimal literals standing for floats. *)

Module Sample.

Definition line_text : string :=
  "<kml xmlns='http://www.opengis.net/kml/2.2'><Placemark><LineString><coordinates>15.97,45.80,0 15.98,45.81,0</coordinates></LineString></Placemark></kml>".

Definition line_tree : element :=
  Element (qname "kml") None
    [Element (qname "Placemark") None
       [Element (qname "LineString") None
          [Element (qname "coordinates")
             (Some "15.97,45.80,0 15.98,45.81,0") []]]].

Definition point_text : string :=
  "<kml xmlns='http://www.opengis.net/kml/2.2'><Placemark><Point><coordinates>15.97 15.98,45.81</coordinates></Point></Placemark></kml>".

Definition point_tree : element :=
  Element (qname "kml") None
    [Element (qname "Placemark") None
       [Element (qname "Point") None
          [Element (qname "coordinates") (Some "15.97 15.98,45.81") []]]].

(** Not well-formed: the elements are never closed. *)
Definition broken_text : string := "<kml><Placemark>".

Definition archive_bytes : string := "PK sample archive".

Definition line_b64 : string :=
  "PGttbCB4bWxucz0naHR0cDovL3d3dy5vcGVuZ2lzLm5ldC9rbWwvMi4yJz48UGxhY2VtYXJrPjxMaW5lU3RyaW5nPjxjb29yZGluYXRlcz4xNS45Nyw0NS44MCwwIDE1Ljk4LDQ1LjgxLDA8L2Nvb3JkaW5hdGVzPjwvTGluZVN0cmluZz48L1BsYWNlbWFyaz48L2ttbD4=".
Definition point_b64 : string :=
  "PGttbCB4bWxucz0naHR0cDovL3d3dy5vcGVuZ2lzLm5ldC9rbWwvMi4yJz48UGxhY2VtYXJrPjxQb2ludD48Y29vcmRpbmF0ZXM+MTUuOTcgMTUuOTgsNDUuODE8L2Nvb3JkaW5hdGVzPjwvUG9pbnQ+PC9QbGFjZW1hcms+PC9rbWw+".
Definition broken_b64 : string := "PGttbD48UGxhY2VtYXJrPg==".
Definition archive_b64 : string := "UEsgc2FtcGxlIGFyY2hpdmU=".
Definition note_b64 : string := "aGVsbG8=".

Fixpoint assoc {A} (k : string) (l : list (string * A)) : option A :=
  match l with
  | [] => None
  | (k', a) :: l' => if String.eqb k k' then Some a else assoc k l'
  end.

Definition or_raise {A} (e : exn) (o : option A) : result A :=
  match o with Some a => Ok a | None => Raise e end.

Definition is_decimal_char (c : ascii) : bool :=
  let n := nat_of_ascii c in
  ((48 <=? n) && (n <=? 57) || (n =? 46) || (n =? 45) || (n =? 43))%nat.

#[local] Instance runtime : Runtime string := {|
  b64decode s :=
    or_raise BinasciiError
      (assoc s [(line_b64, line_text); (point_b64, point_text);
                (broken_b64, broken_text); (archive_b64, archive_bytes);
                (note_b64, "hello")]);
  ET_fromstring s :=
    or_raise ParseError
      (assoc s [(line_text, line_tree); (point_text, point_tree)]);
  py_float s :=
    if Py.nonempty s && Py.all_chars is_decimal_char s then Ok s
    else Raise ValueError;
  zip_members s :=
    or_raise (OtherError "BadZipFile")
      (assoc s [(archive_bytes, [("doc.kml", line_text)])]);
  ET_tostring e := "<merged/>"
|}.

#[local] Instance text_shape : TextShape string := {|
  render_statement s :=
    "INSERT " ++ pretty (stmt_id s) ++ " " ++ stmt_key s ++ " "
      ++ stmt_lon s ++ " " ++ stmt_lat s ++ ";";
  unwrap_escaped s := s
|}.

Definition upload (b64 : string) : string :=
  "data:application/octet-stream;base64," ++ b64.

End Sample.

(** ** Notions used in the statements *)

(** A string of whitespace only. *)
Definition all_space (s : string) : bool := Py.all_chars Py.isspace s.

(** The extension the dispatch of lines 118-124 looks at. *)
Definition upload_ext (filename : string) : string :=
  Py.lower (snd (OsPath.splitext filename)).

(** The file takes one of the two markup branches. *)
Definition dispatched (filename : string) : bool :=
  String.eqb (upload_ext filename) ".kmz"
  || String.eqb (upload_ext filename) ".kml".

(** [n] hexadecimal digits. *)
Definition hex_string (n : nat) (s : string) : Prop :=
  String.length s = n /\ Py.all_chars is_hex s = true.

(** The 8-4-4-4-12 shape, read off the regular expression. *)
Definition is_uuid (u : string) : Prop :=
  exists a b c d e,
    u = a ++ "-" ++ b ++ "-" ++ c ++ "-" ++ d ++ "-" ++ e
    /\ hex_string 8 a /\ hex_string 4 b /\ hex_string 4 c
    /\ hex_string 4 d /\ hex_string 12 e.

(** [u] occurs in [s] after [i] characters. *)
Definition occurs_at (i : nat) (u s : string) : Prop :=
  exists pre post, s = pre ++ u ++ post /\ String.length pre = i.

(** The first two comma-separated fields of a coordinate group, when it
    has at least two. *)
Definition group_fields (group : string) : option (string * string) :=
  match Py.split "," group with
  | f0 :: f1 :: _ => Some (f0, f1)
  | _ => None
  end.

(** A whole string matched by a pattern, position by position. *)
Fixpoint matches (pat : list atom) (u : string) : bool :=
  match pat, u with
  | [], EmptyString => true
  | a :: pat', String c u' => atom_ok a c && matches pat' u'
  | _, _ => false
  end.

(** A name that can stand directly inside a directory. *)
Definition plain_name (f : string) : Prop :=
  Py.nonempty f = true /\ OsPath.sep ∉ String.list_ascii_of_string f.

(** The statements for a list of tuples, numbered from [c]. *)
Fixpoint number_from {F} (key : string) (c : Z) (tuples : list (F * F))
  : list (statement F) :=
  match tuples with
  | [] => []
  | t :: rest =>
      {| stmt_id := c; stmt_key := key; stmt_lon := fst t; stmt_lat := snd t |}
      :: number_from key (c + 1) rest
  end.

Section Traces.

Context {F : Type} {TS : TextShape F} {P : Processor}.

(** The calls of [extract_coordinates_from_kml] made for a list of
    files, threaded by the counter: [(filename, writes)] for each call,
    from the counter before the first call to the counter returned by
    the last. *)
Inductive run_trace (city : string)
  : Z -> list (string * list string) -> Z -> Prop :=
  | trace_nil c : run_trace city c [] c
  | trace_cons c c1 c' filename w rest path (fs fs' : FS) :
      extract_coordinates_from_kml path c (working_street_id filename city) fs
      = (fs', Ok (c1, w)) ->
      run_trace city c1 rest c' ->
      run_trace city c ((filename, w) :: rest) c'.

(** Modelled from the spec: [extract_coordinates_from_kml] is missing;
    the contract of section 4.4 on it: a call that returns wrote one
    line per statement, numbered from the counter it was given without
    a gap, all under the key it was given, and returned the next free
    identifier. *)
Definition emitter_contract : Prop :=
  forall path c key (fs fs' : FS) c' w,
    extract_coordinates_from_kml path c key fs = (fs', Ok (c', w)) ->
    exists stmts : list (statement F),
      w = List.map render_statement stmts
      /\ List.map stmt_id stmts = seqZ c (Z.of_nat (length stmts))
      /\ Forall (fun s => stmt_key s = key) stmts
      /\ c' = c + Z.of_nat (length stmts).

End Traces.

Section Tuples.

Context {F : Type} {RT : Runtime F} {TS : TextShape F}.

(** The fields of the groups parse to these tuples, in order. *)
Definition parsed_as (tuples : list (F * F)) (groups : list string) : Prop :=
  Forall2 (fun t ff => py_float (fst ff) = Ok (fst t)
                       /\ py_float (snd ff) = Ok (snd t))
    tuples (omap group_fields groups).

(** What the emitter keeps true from group to group: the statements so
    far are numbered from [c0] without a gap, all carry [key], and the
    counter is the next free identifier. *)
Definition numbered (key : string) (c0 : Z) (s : list (statement F) * Z)
  : Prop :=
  List.map stmt_id (fst s) = seqZ c0 (Z.of_nat (length (fst s)))
  /\ Forall (fun x => stmt_key x = key) (fst s)
  /\ snd s = c0 + Z.of_nat (length (fst s)).

(** The statements behind a trace, file by file. *)
Definition rendered (per_file : list (string * list (statement F)))
  : list (string * list string) :=
  List.map (fun p => (fst p, List.map render_statement (snd p))) per_file.

End Tuples.

(** ** Sample uploads and their expected outputs *)

Module Runs.

Import Sample.

Definition rt : Runtime string := Sample.runtime.
Definition proc : Processor :=
  spec_processor (RT := Sample.runtime) (TS := Sample.text_shape).

Definition uuid_name : string := "3f2504e0-4f89-11d3-9a0c-0305e82c3301.KML".

(** Four uploads: a line, a note, a point named by a UUID, an archive. *)
Definition batch_contents : list string :=
  [upload line_b64; upload note_b64; upload point_b64; upload archive_b64].
Definition batch_filenames : list string :=
  ["line.kml"; "note.txt"; uuid_name; "a.kmz"].

Definition batch_sql : string :=
  "INSERT 30000 New_York 15.97 45.80;INSERT 30001 New_York 15.98 45.81;INSERT 30002 3f2504e0-4f89-11d3-9a0c-0305e82c3301 15.98 45.81;INSERT 30003 New_York 15.97 45.80;INSERT 30004 New_York 15.98 45.81;".

Definition batch_table : list (row string) :=
  [{| lat := "45.80"; lon := "15.97"; file := "line.kml" |};
   {| lat := "45.81"; lon := "15.98"; file := "line.kml" |};
   {| lat := "45.81"; lon := "15.98"; file := uuid_name |};
   {| lat := "45.80"; lon := "15.97"; file := "a.kmz" |};
   {| lat := "45.81"; lon := "15.98"; file := "a.kmz" |}].

Definition batch_map : option (figure string) :=
  Some {| traces :=
            [{| trace_name := "line.kml"; lons := ["15.97"; "15.98"];
                lats := ["45.80"; "45.81"] |};
             {| trace_name := uuid_name; lons := ["15.98"];
                lats := ["45.81"] |};
             {| trace_name := "a.kmz"; lons := ["15.97"; "15.98"];
                lats := ["45.80"; "45.81"] |}];
          center_lat := "45.80"; center_lon := "15.97" |}.

Definition batch_bundle : bundle :=
  {| members := [("merged_output.kml", "<merged/>");
                 ("line.kml", line_text); ("doc.kml", line_text)];
     download_name := "New York_kml_output.zip" |}.

Definition batch_fs : FS :=
  list_to_map
    [("kmz/a.kmz", archive_bytes); ("kmz/note.txt", "hello");
     ("kml/" ++ uuid_name, point_text); ("kml/merged_output.kml", "<merged/>");
     ("kml/line.kml", line_text); ("kml/doc.kml", line_text)].

End Runs.

(** ** Further notions used in the statements *)

(** The characters of a string. *)
Definition chars (s : string) : list ascii := String.list_ascii_of_string s.

(** The last character of a string. *)
Fixpoint last_char (s : string) : option ascii :=
  match s with
  | EmptyString => None
  | String c EmptyString => Some c
  | String _ s' => last_char s'
  end.

(** A string without whitespace. *)
Definition no_space (s : string) : bool :=
  Py.all_chars (fun c => negb (Py.isspace c)) s.

(** The city fields give no city: a non-empty custom city of whitespace
    only, or no custom city and no selected one. *)
Definition city_missing (selected_city custom_city : option string) : bool :=
  match custom_city with
  | Some c => if Py.nonempty c then all_space c
              else negb (truthy_str selected_city)
  | None => negb (truthy_str selected_city)
  end.

(** The table row of a ring point [(lon, lat)] of a file. *)
Definition row_of {F} (filename : string) (pt : F * F) : row F :=
  {| lat := snd pt; lon := fst pt; file := filename |}.

(** A polygon entry as line 154 builds it: one ring, not empty, and
    every point of the ring is a row of the table under the entry's
    name. *)
Definition entry_ok {F} (table : list (row F)) (p : polygon_entry F) : Prop :=
  exists pt ring,
    polygon p = [pt :: ring]
    /\ Forall (fun q => row_of (name p) q ∈ table) (pt :: ring).

(** The trace that lines 186-195 draw for a ring. *)
Definition trace_of {F} (poly_name : string) (ring : list (F * F)) : trace F :=
  {| trace_name := poly_name;
     lons := List.map fst ring;
     lats := List.map snd ring |}.

Section Reading.

Context {F : Type}.

(** What reading one file has done so far to the table and the polygon
    list it started from. *)
Definition reading (filename : string) (all0 : list (row F))
    (polys0 : list (polygon_entry F))
    (s : list (row F) * list (polygon_entry F)) : Prop :=
  exists rows new,
    fst s = (all0 ++ rows)%list
    /\ Forall (fun r => file r = filename) rows
    /\ snd s = (polys0 ++ new)%list
    /\ Forall (fun p => name p = filename /\ entry_ok (fst s) p) new.

End Reading.

(** The loop of the sample batch on its own: the state and the file
    system it ends with. *)
Definition batch_loop : FS * result (run_state string) :=
  process_uploads (RT := Runs.rt) (P := Runs.proc) "New York" initial_state
    (combine Runs.batch_contents Runs.batch_filenames) ∅.

Definition batch_loop_fs : FS := fst batch_loop.

Definition batch_loop_state : run_state string :=
  match snd batch_loop with
  | Ok st => st
  | Raise _ => initial_state
  end.

(** A processor that does nothing: the sanitizer answers with a path
    that holds no file and the extractor writes no statement.  It is
    used to run the callback where no document can be read back. *)
Definition idle_processor : Processor := {|
  extract_kml_from_kmz := fun archive_path output_dir => ret archive_path;
  delete_files_in_folder := fun d => ret tt;
  remove_cdata_from_kml := fun markup_path => ret "kml/absent.kml";
  extract_coordinates_from_kml := fun path counter key => ret (counter, []);
  merge_kml_files := fun d out counter => ret tt
|}.


(** One markup upload whose extension is in upper case, and what the
    callback leaves and returns for it. *)
Definition upper_case_fs : FS :=
  list_to_map
    [("kml/x.KML", Sample.line_text); ("kml/merged_output.kml", "<merged/>")].

Definition upper_case_sql : string :=
  "INSERT 30000 Zagreb 15.97 45.80;INSERT 30001 Zagreb 15.98 45.81;".

Definition upper_case_table : list (row string) :=
  [{| lat := "45.80"; lon := "15.97"; file := "x.KML" |};
   {| lat := "45.81"; lon := "15.98"; file := "x.KML" |}].

Definition upper_case_map : option (figure string) :=
  Some {| traces :=
            [{| trace_name := "x.KML"; lons := ["15.97"; "15.98"];
                lats := ["45.80"; "45.81"] |}];
          center_lat := "45.80"; center_lon := "15.97" |}.

Definition upper_case_bundle : bundle :=
  {| members := [("merged_output.kml", "<merged/>")];
     download_name := "Zagreb_kml_output.zip" |}.

(** * Properties *)

(** ** The monad *)

Lemma bind_ok {A B} (m : M A) (k : A -> M B) fs fs' b :
  bind m k fs = (fs', Ok b) ->
  exists a fs1, m fs = (fs1, Ok a) /\ k a fs1 = (fs', Ok b).
Proof.
  unfold bind. destruct (m fs) as [fs1 [a|e]]; intros H.
  - exists a, fs1. split; [reflexivity | exact H].
  - discriminate H.
Qed.

Lemma bind_raise_l {A B} (m : M A) (k : A -> M B) fs fs' e :
  m fs = (fs', Raise e) -> bind m k fs = (fs', Raise e).
Proof. unfold bind. intros ->. reflexivity. Qed.

Lemma bind_step {A B} (m : M A) (k : A -> M B) fs fs1 a :
  m fs = (fs1, Ok a) -> bind m k fs = k a fs1.
Proof. unfold bind. intros ->. reflexivity. Qed.

(** ** Text *)

Lemma lstrip_all_space s : all_space s = true -> Py.lstrip s = "".
Proof.
  unfold all_space.
  induction s as [|c s IH]; simpl; [reflexivity|].
  intros H. apply andb_prop in H as [Hc Hs]. rewrite Hc. auto.
Qed.

Lemma strip_all_space s : all_space s = true -> Py.strip s = "".
Proof. intros H. unfold Py.strip. rewrite lstrip_all_space; auto. Qed.

Lemma truthy_list_cons {A} (o : option (list A)) :
  truthy_list o = true -> exists x l, o = Some (x :: l).
Proof. destruct o as [[|x l]|]; simpl; try discriminate; eauto. Qed.

Lemma truthy_str_false (o : option string) :
  truthy_str o = false -> o = None \/ o = Some "".
Proof. destruct o as [[|c s]|]; simpl; try discriminate; auto. Qed.

(** ** Validation before the run *)

Section Validation.

Context {F : Type} {RT : Runtime F} {P : Processor}.

Lemma no_city_rejected n contents filenames selected_city custom_city fs :
  truthy_list contents = true ->
  resolve_city selected_city custom_city = None
  \/ resolve_city selected_city custom_city = Some "" ->
  process_files n contents filenames selected_city custom_city fs
  = (fs, Ok (Rejected NoInputSelected)).
Proof.
  intros Hc Hcity. unfold process_files. rewrite Hc. simpl.
  destruct Hcity as [-> | ->]; reflexivity.
Qed.

(** C5. With zero uploaded files ([contents] is [None] or the empty
    list) the callback returns the EmptyUpload alert and leaves the file
    system exactly as it was, whatever the city fields hold and whatever
    the processor functions would do: none of them is called, so no
    directory is cleared and no file is read or written. *)
Theorem C5_empty_upload_rejected_before_io :
  forall n filenames selected_city custom_city (fs : FS),
    process_files n None filenames selected_city custom_city fs
    = (fs, Ok (Rejected EmptyUpload))
    /\ process_files n (Some []) filenames selected_city custom_city fs
       = (fs, Ok (Rejected EmptyUpload)).
Proof. intros. split; reflexivity. Qed.

(** C6 (amended). When at least one file is uploaded and neither a
    selected city nor a custom city is given (each is [None] or empty),
    the callback returns the NoInputSelected alert and leaves the file
    system exactly as it was: nothing is written, cleared or emitted. *)
Theorem C6_no_city_rejected_before_io :
  forall n contents filenames selected_city custom_city (fs : FS),
    truthy_list contents = true ->
    truthy_str selected_city = false ->
    truthy_str custom_city = false ->
    process_files n contents filenames selected_city custom_city fs
    = (fs, Ok (Rejected NoInputSelected)).
Proof.
  intros n contents filenames sel cust fs Hc Hs Hk.
  apply no_city_rejected; [exact Hc|].
  apply truthy_str_false in Hs, Hk.
  destruct Hk as [-> | ->], Hs as [-> | ->]; simpl; auto.
Qed.

(** C10 (amended). A non-empty custom city, stripped, is the city of the
    run whatever the dropdown holds: the outcome of the callback does
    not depend on the selected city.  When at least one file is
    uploaded, a custom city made of whitespace only has the run rejected
    with the no-city alert before any file I/O, even though a city was
    selected. *)
Theorem C10_custom_city_precedence :
  forall n contents filenames selected_city custom (fs : FS),
    Py.nonempty custom = true ->
    resolve_city selected_city (Some custom) = Some (Py.strip custom)
    /\ (forall other_city,
          process_files n contents filenames selected_city (Some custom) fs
          = process_files n contents filenames other_city (Some custom) fs)
    /\ (all_space custom = true ->
        truthy_list contents = true ->
        process_files n contents filenames selected_city (Some custom) fs
        = (fs, Ok (Rejected NoInputSelected))).
Proof.
  intros n contents filenames sel custom fs Hne.
  assert (Hres : forall s, resolve_city s (Some custom)
                           = Some (Py.strip custom)).
  { intros s. unfold resolve_city. rewrite Hne. reflexivity. }
  split; [apply Hres|]. split.
  - intros other. unfold process_files. rewrite !Hres. reflexivity.
  - intros Hsp Hc. apply no_city_rejected; [exact Hc|].
    right. rewrite Hres, strip_all_space; auto.
Qed.

End Validation.

(** ** The grouping key *)

Lemma str_app_cons c s t : String c s ++ t = String c (s ++ t).
Proof. reflexivity. Qed.

Lemma str_app_nil_l t : "" ++ t = t.
Proof. reflexivity. Qed.

Lemma str_app_assoc s t u : (s ++ t) ++ u = s ++ (t ++ u).
Proof.
  induction s as [|c s IH]; [reflexivity|].
  rewrite !str_app_cons, IH. reflexivity.
Qed.

Lemma str_length_app s t :
  String.length (s ++ t) = (String.length s + String.length t)%nat.
Proof.
  induction s as [|c s IH]; [reflexivity|].
  rewrite str_app_cons. simpl. rewrite IH. reflexivity.
Qed.


Lemma matches_length pat u :
  matches pat u = true -> String.length u = length pat.
Proof.
  revert u. induction pat as [|a pat IH]; intros [|c u]; simpl;
    try discriminate; auto.
  intros H. apply andb_prop in H as [_ H]. f_equal. auto.
Qed.

Lemma match_here_matches pat s u :
  match_here pat s = Some u <->
  matches pat u = true /\ exists post, s = u ++ post.
Proof.
  revert s u. induction pat as [|a pat IH]; intros s u; simpl.
  - split.
    + intros [= <-]. split; [reflexivity|]. exists s. reflexivity.
    + intros [Hm _]. destruct u; [reflexivity | discriminate].
  - destruct s as [|c s].
    + split; [discriminate|]. intros [Hm [post Hs]].
      destruct u; [discriminate|]. rewrite str_app_cons in Hs. discriminate.
    + destruct (atom_ok a c) eqn:Hc.
      * destruct (match_here pat s) as [m|] eqn:Hm; simpl.
        -- apply IH in Hm as [Hm [post ->]]. split.
           ++ intros [= <-]. simpl. rewrite Hc, Hm. split; [reflexivity|].
              exists post. reflexivity.
           ++ intros [Hu [post' Hs]]. destruct u as [|c' u]; [discriminate|].
              rewrite str_app_cons in Hs. injection Hs as <- Hs.
              apply andb_prop in Hu as [_ Hu]. f_equal. f_equal.
              assert (Hx : match_here pat (m ++ post) = Some u).
              { apply IH. split; [exact Hu|]. exists post'. exact Hs. }
              assert (Hy : match_here pat (m ++ post) = Some m).
              { apply IH. split; [exact Hm|]. exists post. reflexivity. }
              congruence.
        -- split; [discriminate|]. intros [Hu [post Hs]].
           destruct u as [|c' u]; [discriminate|].
           rewrite str_app_cons in Hs. injection Hs as <- Hs.
           apply andb_prop in Hu as [_ Hu].
           assert (Hx : match_here pat s = Some u).
           { apply IH. split; [exact Hu|]. exists post. exact Hs. }
           congruence.
      * split; [discriminate|]. intros [Hu [post Hs]].
        destruct u as [|c' u]; [discriminate|].
        rewrite str_app_cons in Hs. injection Hs as <- Hs.
        simpl in Hu. rewrite Hc in Hu. discriminate.
Qed.

Lemma occurs_at_0 u s : occurs_at 0 u s <-> exists post, s = u ++ post.
Proof.
  unfold occurs_at. split.
  - intros (pre & post & -> & Hl). destruct pre; [|discriminate].
    exists post. reflexivity.
  - intros [post ->]. exists "", post. split; reflexivity.
Qed.

Lemma occurs_at_S i u c s : occurs_at (S i) u (String c s) <-> occurs_at i u s.
Proof.
  unfold occurs_at. split.
  - intros (pre & post & Hs & Hl). destruct pre as [|c' pre]; [discriminate|].
    rewrite str_app_cons in Hs. injection Hs as <- ->.
    exists pre, post. split; [reflexivity|]. simpl in Hl. lia.
  - intros (pre & post & -> & Hl). exists (String c pre), post.
    split; [reflexivity|]. simpl. lia.
Qed.

Lemma occurs_at_empty i u : occurs_at i u "" -> i = 0%nat /\ u = "".
Proof.
  intros (pre & post & Hs & Hl). destruct pre; [|discriminate].
  destruct u; [|discriminate]. auto.
Qed.

(** [re.search] returns the match at the leftmost position that has
    one. *)
Lemma re_search_some pat s u :
  re_search pat s = Some u ->
  exists i, occurs_at i u s /\ matches pat u = true
            /\ forall j u', (j < i)%nat -> occurs_at j u' s ->
                            matches pat u' = false.
Proof.
  revert u. induction s as [|c s IH]; intros u; simpl.
  - destruct (match_here pat "") as [m|] eqn:Hm; [|discriminate].
    intros [= <-]. apply match_here_matches in Hm as [Hm Hp].
    exists 0%nat. split; [apply occurs_at_0; exact Hp|].
    split; [exact Hm|]. intros; lia.
  - destruct (match_here pat (String c s)) as [m|] eqn:Hm.
    + intros [= <-]. apply match_here_matches in Hm as [Hm Hp].
      exists 0%nat. split; [apply occurs_at_0; exact Hp|].
      split; [exact Hm|]. intros; lia.
    + intros H. apply IH in H as (i & Ho & Hu & Hmin).
      exists (S i). split; [apply occurs_at_S; exact Ho|].
      split; [exact Hu|]. intros [|j] u' Hj Hoc.
      * destruct (matches pat u') eqn:Hx; [|reflexivity].
        assert (match_here pat (String c s) = Some u') as Hy.
        { apply match_here_matches. split; [exact Hx|].
          apply occurs_at_0. exact Hoc. }
        congruence.
      * apply (Hmin j); [lia|]. apply occurs_at_S in Hoc. exact Hoc.
Qed.

Lemma re_search_none pat s :
  re_search pat s = None ->
  forall j u', occurs_at j u' s -> matches pat u' = false.
Proof.
  induction s as [|c s IH]; simpl.
  - destruct (match_here pat "") as [m|] eqn:Hm; [discriminate|].
    intros _ j u' Hoc. destruct (matches pat u') eqn:Hx; [|reflexivity].
    apply occurs_at_empty in Hoc as [-> ->].
    assert (match_here pat "" = Some "") as Hy.
    { apply match_here_matches. split; [exact Hx|]. exists "". reflexivity. }
    congruence.
  - destruct (match_here pat (String c s)) as [m|] eqn:Hm; [discriminate|].
    intros H [|j] u' Hoc.
    + destruct (matches pat u') eqn:Hx; [|reflexivity].
      assert (match_here pat (String c s) = Some u') as Hy.
      { apply match_here_matches. split; [exact Hx|].
        apply occurs_at_0. exact Hoc. }
      congruence.
    + apply (IH H j). apply occurs_at_S in Hoc. exact Hoc.
Qed.

Lemma occurs_at_unique i u u' s :
  occurs_at i u s -> occurs_at i u' s ->
  String.length u = String.length u' -> u = u'.
Proof.
  revert i u u'. induction s as [|c s IH]; intros i u u' H1 H2 Hl.
  - apply occurs_at_empty in H1 as [_ ->].
    apply occurs_at_empty in H2 as [_ ->]. reflexivity.
  - destruct i as [|i].
    + apply occurs_at_0 in H1 as [p1 E1]. apply occurs_at_0 in H2 as [p2 E2].
      destruct u as [|a u], u' as [|a' u']; try discriminate; [reflexivity|].
      rewrite str_app_cons in E1, E2. injection E1 as <- E1.
      injection E2 as <- E2. f_equal.
      apply (IH 0%nat); [apply occurs_at_0; eauto ..|].
      simpl in Hl. lia.
    + apply occurs_at_S in H1, H2. eapply IH; eauto.
Qed.

Lemma matches_hex_app n pat s t :
  hex_string n s ->
  matches (repeat Hex n ++ pat)%list (s ++ t) = matches pat t.
Proof.
  revert s. induction n as [|n IH]; intros s [Hl Hh].
  - destruct s; [reflexivity | discriminate].
  - destruct s as [|c s]; [discriminate|].
    simpl in Hh. apply andb_prop in Hh as [Hc Hh].
    rewrite str_app_cons. simpl. rewrite Hc. simpl.
    apply IH. split; [simpl in Hl; lia | exact Hh].
Qed.

Lemma matches_hex_split n pat u :
  matches (repeat Hex n ++ pat)%list u = true ->
  exists s t, u = s ++ t /\ hex_string n s /\ matches pat t = true.
Proof.
  revert u. induction n as [|n IH]; intros u H.
  - exists "", u. repeat split; auto.
  - destruct u as [|c u]; [discriminate|]. simpl in H.
    apply andb_prop in H as [Hc H].
    apply IH in H as (s & t & -> & [Hl Hh] & Ht).
    exists (String c s), t. split; [reflexivity|]. split; [|exact Ht].
    split; simpl; [lia|]. rewrite Hc. exact Hh.
Qed.

Lemma matches_dash pat u :
  matches (Dash :: pat) u = true <->
  exists t, u = "-" ++ t /\ matches pat t = true.
Proof.
  split.
  - destruct u as [|c u]; [discriminate|]. simpl. intros H.
    apply andb_prop in H as [Hc H]. apply Ascii.eqb_eq in Hc as ->.
    exists u. split; [reflexivity | exact H].
  - intros (t & -> & H). rewrite str_app_cons. simpl. exact H.
Qed.

Lemma matches_uuid u : matches uuid_pattern u = true <-> is_uuid u.
Proof.
  unfold uuid_pattern, is_uuid. split.
  - intros H.
    apply matches_hex_split in H as (a & t & -> & Ha & H).
    apply matches_dash in H as (t' & -> & H).
    apply matches_hex_split in H as (b & t & -> & Hb & H).
    apply matches_dash in H as (t' & -> & H).
    apply matches_hex_split in H as (c & t & -> & Hc & H).
    apply matches_dash in H as (t' & -> & H).
    apply matches_hex_split in H as (d & t & -> & Hd & H).
    apply matches_dash in H as (t' & -> & H).
    rewrite <- (app_nil_r (repeat Hex 12)) in H.
    apply matches_hex_split in H as (e & t & -> & He & H).
    destruct t; [|discriminate].
    exists a, b, c, d, (e ++ ""). repeat split; try apply Ha; try apply Hb;
      try apply Hc; try apply Hd.
    + rewrite str_length_app. destruct He as [-> _]. reflexivity.
    + destruct He as [_ He]. clear -He. induction e as [|x e IH]; [reflexivity|].
      simpl in He. apply andb_prop in He as [Hx He].
      rewrite str_app_cons. simpl. rewrite Hx. auto.
  - intros (a & b & c & d & e & -> & Ha & Hb & Hc & Hd & He).
    rewrite (matches_hex_app 8 _ a) by exact Ha.
    apply matches_dash. eexists. split; [reflexivity|].
    rewrite (matches_hex_app 4 _ b) by exact Hb.
    apply matches_dash. eexists. split; [reflexivity|].
    rewrite (matches_hex_app 4 _ c) by exact Hc.
    apply matches_dash. eexists. split; [reflexivity|].
    rewrite (matches_hex_app 4 _ d) by exact Hd.
    apply matches_dash. eexists. split; [reflexivity|].
    assert (He' : e = e ++ "").
    { clear. induction e as [|x e IH]; [reflexivity|].
      rewrite str_app_cons, <- IH. reflexivity. }
    rewrite He', <- (app_nil_r (repeat Hex 12)).
    rewrite (matches_hex_app 12 [] e) by exact He. reflexivity.
Qed.

Lemma replace_get a b s i :
  String.get i (Py.replace a b s)
  = option_map (fun c => if Ascii.eqb c a then b else c) (String.get i s).
Proof.
  revert i. induction s as [|c s IH]; intros i; simpl; [reflexivity|].
  destruct i; [reflexivity|]. apply IH.
Qed.

Lemma replace_length a b s :
  String.length (Py.replace a b s) = String.length s.
Proof. induction s; simpl; congruence. Qed.

Section Key.

Context {F : Type} {RT : Runtime F} {P : Processor}.

Lemma process_markup_ok city (st st' : run_state F) filename kml_path
    (fs fs' : FS) :
  process_markup city st filename kml_path fs = (fs', Ok st') ->
  exists cleaned_kml fs1 c' w,
    remove_cdata_from_kml kml_path fs = (fs1, Ok cleaned_kml)
    /\ extract_coordinates_from_kml cleaned_kml (count st)
         (working_street_id filename city) fs1 = (fs', Ok (c', w))
    /\ count st' = c'
    /\ sql_output_all st'
       = (sql_output_all st ++ [String.concat "" w])%list
    /\ (all_coords st', polygons st')
       = read_coordinates filename cleaned_kml fs'
           (all_coords st, polygons st).
Proof.
  unfold process_markup. intros H.
  apply bind_ok in H as (cleaned & fs1 & Hc & H).
  apply bind_ok in H as ([c' w] & fs2 & He & H).
  apply bind_ok in H as (fs3 & fs4 & Hg & H).
  unfold get_fs in Hg. injection Hg as <- <-.
  unfold ret in H. injection H as <- <-.
  exists cleaned, fs1, c', w. simpl.
  repeat split; auto. destruct (read_coordinates _ _ _ _); reflexivity.
Qed.

(** C3. The grouping key of a file is the first substring of its name
    that has the 8-4-4-4-12 hexadecimal shape, when there is one, and
    otherwise the city with every space replaced by an underscore (same
    length, every other character kept); it is under this key that the
    extractor is called for the file. *)
Theorem C3_grouping_key :
  forall filename city,
    (forall i u,
        occurs_at i u filename -> is_uuid u ->
        (forall j u', occurs_at j u' filename -> is_uuid u' -> (i <= j)%nat) ->
        working_street_id filename city = u)
    /\ ((forall i u, occurs_at i u filename -> ~ is_uuid u) ->
        working_street_id filename city = Py.replace " " "_" city)
    /\ (String.length (Py.replace " " "_" city) = String.length city
        /\ forall i,
            String.get i (Py.replace " " "_" city)
            = option_map (fun c => if Ascii.eqb c " " then "_"%char else c)
                (String.get i city))
    /\ (forall (st st' : run_state F) kml_path (fs fs' : FS),
          process_markup city st filename kml_path fs = (fs', Ok st') ->
          exists cleaned_kml fs1 c' w,
            extract_coordinates_from_kml cleaned_kml (count st)
              (working_street_id filename city) fs1 = (fs', Ok (c', w))
            /\ sql_output_all st'
               = (sql_output_all st ++ [String.concat "" w])%list).
Proof.
  intros filename city. unfold working_street_id.
  split; [|split; [|split]].
  - intros i u Hoc Hu Hmin.
    destruct (re_search uuid_pattern filename) as [m|] eqn:Hs.
    + apply re_search_some in Hs as (k & Hk & Hm & Hfirst).
      assert (Hik : (i <= k)%nat).
      { apply (Hmin k m); [exact Hk | apply matches_uuid; exact Hm]. }
      assert (Hki : ~ (i < k)%nat).
      { intros Hlt. specialize (Hfirst i u Hlt Hoc).
        apply matches_uuid in Hu. congruence. }
      assert (k = i) as -> by lia.
      apply (occurs_at_unique i m u filename); auto.
      apply matches_uuid in Hu.
      rewrite (matches_length _ _ Hm), (matches_length _ _ Hu). reflexivity.
    + pose proof (re_search_none _ _ Hs i u Hoc) as Hn.
      apply matches_uuid in Hu. congruence.
  - intros Hnone.
    destruct (re_search uuid_pattern filename) as [m|] eqn:Hs; [|reflexivity].
    apply re_search_some in Hs as (k & Hk & Hm & _).
    exfalso. apply (Hnone k m Hk). apply matches_uuid. exact Hm.
  - split; [apply replace_length | intros i; apply replace_get].
  - intros st st' kml_path fs fs' H.
    apply process_markup_ok in H
      as (cleaned & fs1 & c' & w & _ & He & _ & Hsql & _).
    exists cleaned, fs1, c', w. split; [exact He | exact Hsql].
Qed.

End Key.

(** ** Dispatch by extension *)

Lemma startswith_slash s :
  Py.startswith s "/" = true -> exists t, s = String "/" t.
Proof.
  unfold Py.startswith. destruct s as [|c s]; cbn [String.prefix];
    [discriminate|].
  destruct (ascii_dec "/" c) as [<-|]; [eauto | discriminate].
Qed.


Section Dispatch.

Context {F : Type} {RT : Runtime F} {P : Processor}.

Lemma process_file_unfold city (st : run_state F) content filename decoded
    (fs : FS) :
  decode_upload content = Ok decoded ->
  process_file city st (content, filename) fs
  = (if String.eqb (upload_ext filename) ".kmz" then
       kml_path <- extract_kml_from_kmz (OsPath.join KMZ_DIR filename) KML_DIR;;
       process_markup city st filename kml_path
     else if String.eqb (upload_ext filename) ".kml" then
       shutil_move (OsPath.join KMZ_DIR filename)
         (OsPath.join KML_DIR filename);;
       process_markup city st filename (OsPath.join KML_DIR filename)
     else ret st)
      (<[OsPath.join KMZ_DIR filename := decoded]> fs).
Proof.
  intros Hd. unfold process_file. simpl fst. simpl snd.
  unfold bind at 1. unfold lift. rewrite Hd.
  unfold bind at 1. unfold write_file, modify_fs. reflexivity.
Qed.

Lemma process_file_kml city (st : run_state F) content filename decoded
    (fs : FS) :
  decode_upload content = Ok decoded ->
  upload_ext filename = ".kml" ->
  process_file city st (content, filename) fs
  = process_markup city st filename (OsPath.join KML_DIR filename)
      (<[OsPath.join KML_DIR filename := decoded]>
         (delete (OsPath.join KMZ_DIR filename)
            (<[OsPath.join KMZ_DIR filename := decoded]> fs))).
Proof.
  intros Hd He. rewrite (process_file_unfold _ _ _ _ _ _ Hd), He.
  rewrite (eq_refl : String.eqb ".kml" ".kmz" = false).
  rewrite (eq_refl : String.eqb ".kml" ".kml" = true).
  unfold bind at 1. unfold shutil_move, bind, read_file, modify_fs.
  rewrite lookup_insert_eq. reflexivity.
Qed.

End Dispatch.

(** ** Coordinate groups *)


Lemma group_fields_none group :
  group_fields group = None <-> (length (Py.split "," group) < 2)%nat.
Proof.
  unfold group_fields. destruct (Py.split "," group) as [|f0 [|f1 l]];
    simpl; split; intros H; try reflexivity; try discriminate; lia.
Qed.

Lemma group_fields_some group f0 f1 :
  group_fields group = Some (f0, f1) <->
  (2 <= length (Py.split "," group))%nat
  /\ Py.split "," group !! 0%nat = Some f0
  /\ Py.split "," group !! 1%nat = Some f1.
Proof.
  unfold group_fields. destruct (Py.split "," group) as [|g0 [|g1 l]];
    simpl; split.
  - discriminate.
  - intros (H & _ & _). lia.
  - discriminate.
  - intros (H & _ & _). lia.
  - intros [= -> ->]. repeat split; lia.
  - intros (_ & [= ->] & [= ->]). reflexivity.
Qed.

Lemma number_from_app {F} key c (t1 t2 : list (F * F)) :
  number_from key c (t1 ++ t2)
  = (number_from key c t1
     ++ number_from key (c + Z.of_nat (length t1)) t2)%list.
Proof.
  revert c. induction t1 as [|t t1 IH]; intros c; simpl.
  - f_equal. lia.
  - f_equal. rewrite IH. do 2 f_equal. lia.
Qed.

Lemma number_from_ids {F} key c (tuples : list (F * F)) :
  List.map stmt_id (number_from key c tuples)
  = seqZ c (Z.of_nat (length tuples)).
Proof.
  revert c. induction tuples as [|t tuples IH]; intros c; [reflexivity|].
  cbn [number_from List.map length]. rewrite IH.
  rewrite (seqZ_cons c) by lia. f_equal. f_equal. lia.
Qed.

Section Groups.

Context {F : Type} {RT : Runtime F}.

Lemma coord_step_skip filename (s : list (row F) * list (F * F)) group :
  group_fields group = None -> coord_step filename s group = (s, None).
Proof.
  unfold group_fields, coord_step.
  destruct (Py.split "," group) as [|f0 [|f1 l]]; try discriminate; auto.
Qed.

Lemma coord_step_take filename (s : list (row F) * list (F * F)) group
    f0 f1 lon_v lat_v :
  group_fields group = Some (f0, f1) ->
  py_float f0 = Ok lon_v -> py_float f1 = Ok lat_v ->
  coord_step filename s group
  = ((fst s ++ [{| lat := lat_v; lon := lon_v; file := filename |}],
      snd s ++ [(lon_v, lat_v)])%list, None).
Proof.
  unfold group_fields, coord_step.
  destruct (Py.split "," group) as [|g0 [|g1 l]]; try discriminate.
  intros [= -> ->] -> ->. reflexivity.
Qed.

Lemma emit_group_skip key (e : list (statement F) * Z) group :
  group_fields group = None -> Spec.emit_group key e group = e.
Proof.
  unfold group_fields, Spec.emit_group.
  destruct (Py.split "," group) as [|f0 [|f1 l]]; try discriminate; auto.
Qed.

Lemma emit_group_take key (e : list (statement F) * Z) group
    f0 f1 lon_v lat_v :
  group_fields group = Some (f0, f1) ->
  py_float f0 = Ok lon_v -> py_float f1 = Ok lat_v ->
  Spec.emit_group key e group
  = ((fst e ++ [{| stmt_id := snd e; stmt_key := key;
                   stmt_lon := lon_v; stmt_lat := lat_v |}])%list,
     snd e + 1).
Proof.
  unfold group_fields, Spec.emit_group.
  destruct (Py.split "," group) as [|g0 [|g1 l]]; try discriminate.
  intros [= -> ->] -> ->. reflexivity.
Qed.


Lemma coord_loop_groups filename groups tuples
    (all : list (row F)) (poly : list (F * F)) :
  parsed_as tuples groups ->
  try_fold (coord_step filename) groups (all, poly)
  = ((all ++ List.map (fun t => {| lat := snd t; lon := fst t;
                                   file := filename |}) tuples,
      poly ++ tuples)%list, None).
Proof.
  unfold parsed_as. revert tuples all poly.
  induction groups as [|g groups IH]; intros tuples all poly H.
  - simpl in H. inversion H; subst. simpl. rewrite !app_nil_r. reflexivity.
  - cbn [omap list_omap] in H. cbn [try_fold].
    destruct (group_fields g) as [[f0 f1]|] eqn:Hg.
    + inversion H as [|t ff tuples' ffs [H0 H1] Hrest]; subst.
      rewrite (coord_step_take _ _ _ _ _ _ _ Hg H0 H1).
      cbn [fst snd]. rewrite (IH tuples' _ _ Hrest).
      cbn [List.map]. rewrite <- !app_assoc. destruct t; reflexivity.
    + rewrite (coord_step_skip _ _ _ Hg). apply IH. exact H.
Qed.

Lemma emit_groups key groups tuples (stmts : list (statement F)) c :
  parsed_as tuples groups ->
  fold_left (Spec.emit_group key) groups (stmts, c)
  = ((stmts ++ number_from key c tuples)%list,
     c + Z.of_nat (length tuples)).
Proof.
  unfold parsed_as. revert tuples stmts c.
  induction groups as [|g groups IH]; intros tuples stmts c H.
  - simpl in H. inversion H; subst. simpl. rewrite app_nil_r. f_equal. lia.
  - cbn [omap list_omap] in H. cbn [fold_left].
    destruct (group_fields g) as [[f0 f1]|] eqn:Hg.
    + inversion H as [|t ff tuples' ffs [H0 H1] Hrest]; subst.
      rewrite (emit_group_take _ _ _ _ _ _ _ Hg H0 H1).
      cbn [fst snd]. rewrite (IH tuples' _ _ Hrest).
      cbn [number_from length]. rewrite <- app_assoc. f_equal. lia.
    + rewrite (emit_group_skip _ _ _ Hg). apply IH. exact H.
Qed.

(** C2. A coordinate group with fewer than two comma-separated fields
    is skipped: the table loop of [app.py] leaves [all_coords] and the
    ring unchanged and does not raise, and the emitter leaves its
    statements and its counter unchanged.  A group with at least two
    fields whose fields 0 and 1 parse as floats gives exactly that
    longitude and latitude, whatever fields follow: one row and one ring
    point in [app.py], one statement numbered by the current counter and
    the counter moved by one in the emitter.  Over a whole blob split on
    whitespace, the rows, the ring and the statements are those of the
    groups with two fields or more, in order, with consecutive
    identifiers. *)
Theorem C2_coordinate_groups :
  forall filename key group
         (s : list (row F) * list (F * F)) (e : list (statement F) * Z),
    ((length (Py.split "," group) < 2)%nat ->
     coord_step filename s group = (s, None)
     /\ Spec.emit_group key e group = e)
    /\ (forall f0 f1 lon_v lat_v,
           (2 <= length (Py.split "," group))%nat ->
           Py.split "," group !! 0%nat = Some f0 ->
           Py.split "," group !! 1%nat = Some f1 ->
           py_float f0 = Ok lon_v -> py_float f1 = Ok lat_v ->
           coord_step filename s group
           = ((fst s ++ [{| lat := lat_v; lon := lon_v; file := filename |}],
               snd s ++ [(lon_v, lat_v)])%list, None)
           /\ Spec.emit_group key e group
              = ((fst e ++ [{| stmt_id := snd e; stmt_key := key;
                               stmt_lon := lon_v; stmt_lat := lat_v |}])%list,
                 snd e + 1))
    /\ (forall text tuples,
           parsed_as tuples (Py.split_ws text) ->
           try_fold (coord_step filename) (Py.split_ws text) s
           = ((fst s ++ List.map (fun t => {| lat := snd t; lon := fst t;
                                              file := filename |}) tuples,
               snd s ++ tuples)%list, None)
           /\ fold_left (Spec.emit_group key) (Py.split_ws text) e
              = ((fst e ++ number_from key (snd e) tuples)%list,
                 snd e + Z.of_nat (length tuples))
           /\ List.map stmt_id (number_from key (snd e) tuples)
              = seqZ (snd e) (Z.of_nat (length tuples))).
Proof.
  intros filename key group s e. split; [|split].
  - intros Hlt. apply group_fields_none in Hlt.
    split; [apply coord_step_skip | apply emit_group_skip]; exact Hlt.
  - intros f0 f1 lon_v lat_v Hlen H0 H1 Hp0 Hp1.
    assert (Hg : group_fields group = Some (f0, f1)).
    { apply group_fields_some. auto. }
    split; [eapply coord_step_take | eapply emit_group_take]; eauto.
  - intros text tuples Hp. destruct s as [all poly], e as [stmts c].
    split; [apply coord_loop_groups; exact Hp|].
    split; [apply emit_groups; exact Hp | apply number_from_ids].
Qed.

End Groups.

(** ** The run as a whole *)

Lemma str_app_nil_r s : s ++ "" = s.
Proof.
  induction s as [|c s IH]; [reflexivity|].
  rewrite str_app_cons, IH. reflexivity.
Qed.

Lemma concat_cons x xs :
  String.concat "" (x :: xs) = x ++ String.concat "" xs.
Proof.
  destruct xs as [|y ys]; simpl.
  - rewrite str_app_nil_r. reflexivity.
  - reflexivity.
Qed.

Lemma concat_app xs ys :
  String.concat "" (xs ++ ys)%list
  = String.concat "" xs ++ String.concat "" ys.
Proof.
  induction xs as [|x xs IH].
  - reflexivity.
  - rewrite <- app_comm_cons, !concat_cons, IH, str_app_assoc. reflexivity.
Qed.

Lemma concat_concat (ls : list (list string)) :
  String.concat "" (List.map (String.concat "") ls)
  = String.concat "" (List.concat ls).
Proof.
  induction ls as [|l ls IH]; [reflexivity|].
  cbn [List.map List.concat]. rewrite concat_cons, concat_app, IH.
  reflexivity.
Qed.

Lemma zip_write_fs names (fs fs' : FS) r :
  zip_write names fs = (fs', r) -> fs' = fs.
Proof.
  revert fs' r. induction names as [|f names IH]; intros fs' r; simpl.
  - unfold ret. intros [= <- _]. reflexivity.
  - destruct (Py.endswith f ".kml"); [|apply IH].
    unfold bind, read_file. destruct (fs !! OsPath.join KML_DIR f).
    + destruct (zip_write names fs) as [fs1 [more|e]] eqn:Hz.
      * unfold ret. intros [= <- _]. eapply IH. reflexivity.
      * intros [= <- _]. eapply IH. reflexivity.
    + intros [= <- _]. reflexivity.
Qed.

Section Run.

Context {F : Type} {RT : Runtime F} {P : Processor}.

Lemma process_file_ok city (st st' : run_state F) content filename
    (fs fs' : FS) :
  process_file city st (content, filename) fs = (fs', Ok st') ->
  (dispatched filename = false /\ st' = st)
  \/ (dispatched filename = true
      /\ exists kml_path fs0,
          process_markup city st filename kml_path fs0 = (fs', Ok st')).
Proof.
  intros H. destruct (decode_upload content) as [decoded|e] eqn:Hd.
  - rewrite (process_file_unfold _ _ _ _ _ _ Hd) in H.
    unfold dispatched.
    destruct (String.eqb (upload_ext filename) ".kmz").
    + right. split; [reflexivity|].
      apply bind_ok in H as (kml_path & fs0 & _ & H). eauto.
    + destruct (String.eqb (upload_ext filename) ".kml").
      * right. split; [reflexivity|].
        apply bind_ok in H as (u & fs0 & _ & H). eauto.
      * left. split; [reflexivity|]. unfold ret in H. congruence.
  - unfold process_file in H. simpl fst in H. unfold bind at 1 in H.
    unfold lift in H. rewrite Hd in H. discriminate.
Qed.

Lemma process_uploads_trace city uploads (st st' : run_state F)
    (fs fs' : FS) :
  process_uploads city st uploads fs = (fs', Ok st') ->
  exists outs,
    run_trace city (count st) outs (count st')
    /\ List.map fst outs = List.filter dispatched (List.map snd uploads)
    /\ sql_output_all st'
       = (sql_output_all st
          ++ List.map (fun o => String.concat "" (snd o)) outs)%list.
Proof.
  revert st fs. induction uploads as [|[content filename] uploads IH];
    intros st fs H.
  - simpl in H. unfold ret in H. injection H as _ <-.
    exists []. split; [constructor|]. split; [reflexivity|].
    simpl. rewrite app_nil_r. reflexivity.
  - simpl in H. apply bind_ok in H as (st1 & fs1 & Hf & H).
    apply IH in H as (outs & Htr & Hnames & Hsql).
    apply process_file_ok in Hf as [[Hd ->] | [Hd (kml_path & fs0 & Hm)]].
    + exists outs. split; [exact Htr|]. split; [|exact Hsql].
      cbn [List.map List.filter snd]. rewrite Hd. exact Hnames.
    + apply process_markup_ok in Hm
        as (cleaned & fs2 & c' & w & _ & He & Hc & Hs & _).
      exists ((filename, w) :: outs). split; [|split].
      * econstructor; [exact He|]. rewrite <- Hc. exact Htr.
      * cbn [List.map List.filter snd fst]. rewrite Hd, Hnames. reflexivity.
      * rewrite Hsql, Hs. cbn [List.map snd]. rewrite <- app_assoc.
        reflexivity.
Qed.

(** What a completed run went through, stage by stage. *)
Lemma process_files_completed n contents filenames selected_city custom_city
    (fs fs' : FS) a sql table map_fig download :
  process_files n contents filenames selected_city custom_city fs
  = (fs', Ok (Completed a sql table map_fig download)) ->
  exists city fs1 fs2 fs3 (st : run_state F),
    truthy_list contents = true
    /\ resolve_city selected_city custom_city = Some city
    /\ Py.nonempty city = true
    /\ delete_files_in_folder KMZ_DIR fs = (fs1, Ok tt)
    /\ delete_files_in_folder KML_DIR fs1 = (fs2, Ok tt)
    /\ process_uploads city initial_state
         (combine (default [] contents) filenames) fs2 = (fs3, Ok st)
    /\ merge_kml_files KML_DIR (OsPath.join KML_DIR "merged_output.kml")
         (count st) fs3 = (fs', Ok tt)
    /\ zip_write (listdir KML_DIR fs') fs' = (fs', Ok (members download))
    /\ download_name download = city ++ "_kml_output.zip"
    /\ build_map (polygons st) = Ok map_fig
    /\ a = ProcessingComplete
    /\ sql = String.concat "" (sql_output_all st)
    /\ table = all_coords st.
Proof.
  unfold process_files. intros H.
  destruct (truthy_list contents) eqn:Hc; simpl in H;
    [|unfold ret in H; discriminate].
  destruct (resolve_city selected_city custom_city) as [[|c0 city]|] eqn:Hr;
    try (unfold ret in H; discriminate).
  apply bind_ok in H as ([] & fs1 & Hd1 & H).
  apply bind_ok in H as ([] & fs2 & Hd2 & H).
  apply bind_ok in H as (st & fs3 & Hp & H).
  apply bind_ok in H as ([] & fs4 & Hm & H).
  apply bind_ok in H as (fs5 & fs6 & Hg & H).
  unfold get_fs in Hg. injection Hg as <- <-.
  apply bind_ok in H as (zipped & fs7 & Hz & H).
  pose proof (zip_write_fs _ _ _ _ Hz) as ->.
  apply bind_ok in H as (mf & fs8 & Hb & H).
  unfold lift in Hb. injection Hb as <- Hb.
  unfold ret in H. injection H as <- <- <- <- <- <-.
  exists (String c0 city), fs1, fs2, fs3, st.
  repeat split; auto.
Qed.

(** C8. The statement text of a completed run is the concatenation of
    what the extractor wrote, call by call: one call per file that took
    a markup branch, in upload order, each under the key of its file and
    starting from the counter the previous call returned; inside a call
    the writes keep the order in which they were made. *)
Theorem C8_statement_text_in_file_order :
  forall n contents filenames selected_city custom_city (fs fs' : FS)
         a sql table map_fig download,
    process_files n contents filenames selected_city custom_city fs
    = (fs', Ok (Completed a sql table map_fig download)) ->
    exists city outs c_final,
      resolve_city selected_city custom_city = Some city
      /\ run_trace city 30000 outs c_final
      /\ List.map fst outs
         = List.filter dispatched
             (List.map snd (combine (default [] contents) filenames))
      /\ sql = String.concat ""
                 (List.map (fun o => String.concat "" (snd o)) outs)
      /\ sql = String.concat "" (List.concat (List.map snd outs)).
Proof.
  intros n contents filenames sel cust fs fs' a sql table map_fig download H.
  apply process_files_completed in H
    as (city & fs1 & fs2 & fs3 & st & _ & Hr & _ & _ & _ & Hp & _ & _ & _
        & _ & _ & -> & _).
  apply process_uploads_trace in Hp as (outs & Htr & Hnames & Hsql).
  exists city, outs, (count st). split; [exact Hr|].
  split; [exact Htr|]. split; [exact Hnames|].
  simpl in Hsql. rewrite Hsql. split; [reflexivity|].
  rewrite <- concat_concat, List.map_map. reflexivity.
Qed.

End Run.

(** ** The running counter *)

Section Counter.

Context {F : Type} {RT : Runtime F} {TS : TextShape F}.


Lemma fold_left_invariant {A B} (I : A -> Prop) (f : A -> B -> A) l a :
  (forall a b, I a -> I (f a b)) -> I a -> I (fold_left f l a).
Proof.
  intros Hf. revert a. induction l as [|b l IH]; intros a Ha; simpl; auto.
Qed.

Lemma emit_group_numbered key c0 s group :
  numbered key c0 s -> numbered key c0 (Spec.emit_group key s group).
Proof.
  intros (Hids & Hkeys & Hc). unfold Spec.emit_group.
  destruct (Py.split "," group) as [|f0 [|f1 l]];
    try (repeat split; assumption).
  destruct (py_float f0) as [lon_v|]; [|repeat split; assumption].
  destruct (py_float f1) as [lat_v|]; [|repeat split; assumption].
  unfold numbered. cbn [fst snd].
  rewrite length_app, List.map_app. cbn [length List.map stmt_id].
  replace (length (fst s) + 1)%nat with (S (length (fst s))) by lia.
  rewrite seqZ_S, Hids, Hc. repeat split.
  - apply Forall_app. split; [exact Hkeys|]. constructor; [reflexivity|].
    constructor.
  - lia.
Qed.

Lemma emit_document_numbered key c root :
  numbered key c (Spec.emit_document key c root).
Proof.
  unfold Spec.emit_document.
  apply fold_left_invariant.
  - intros s placemark Hs. apply fold_left_invariant; [|exact Hs].
    intros s' ce Hs'. unfold Spec.emit_coordinates.
    apply fold_left_invariant; [|exact Hs'].
    intros s'' g. apply emit_group_numbered.
  - repeat split; simpl; [constructor | lia].
Qed.

(** The extractor of the specification keeps the contract. *)
Lemma spec_emitter_contract : emitter_contract (P := spec_processor).
Proof.
  intros path c key fs fs' c' w H. simpl in H.
  unfold Spec.extract_coordinates_from_kml in H.
  apply bind_ok in H as (text & fs1 & _ & H).
  destruct (ET_fromstring text) as [root|]; [|discriminate].
  unfold ret in H. injection H as _ <- <-.
  destruct (emit_document_numbered key c root) as (Hids & Hkeys & Hc).
  exists (fst (Spec.emit_document key c root)). auto.
Qed.

End Counter.

Section CounterRun.

Context {F : Type} {RT : Runtime F} {TS : TextShape F} {P : Processor}.


Lemma trace_statements city c outs c' :
  emitter_contract ->
  run_trace city c outs c' ->
  exists per_file : list (string * list (statement F)),
    outs = rendered per_file
    /\ List.map stmt_id (List.concat (List.map snd per_file))
       = seqZ c (Z.of_nat (length (List.concat (List.map snd per_file))))
    /\ Forall (fun p => Forall (fun s => stmt_key s
                                         = working_street_id (fst p) city)
                          (snd p)) per_file
    /\ c' = c + Z.of_nat (length (List.concat (List.map snd per_file))).
Proof.
  intros Hcontract Htr. induction Htr as [c | c c1 c' f w rest path fs fs'
                                            He Htr IH].
  - exists []. simpl. repeat split; [constructor | lia].
  - destruct IH as (per_file & -> & Hids & Hkeys & ->).
    apply Hcontract in He as (stmts & -> & Hs & Hk & ->).
    exists ((f, stmts) :: per_file).
    cbn [List.map snd List.concat rendered fst].
    rewrite length_app, List.map_app, Nat2Z.inj_add.
    rewrite seqZ_app by lia. rewrite Hs, Hids.
    repeat split; [constructor; assumption | lia].
Qed.

(** C1. In a completed run whose extractor keeps the contract of
    section 4.4, the counter starts at 30000, each call for a file
    starts from the counter the previous call returned, the identifiers
    of the N statements of the batch are 30000, 30001, ..., 30000+N-1 in
    order (so none is issued twice, within or across files), the
    statement text is these statements in that order, and the merge
    step is called with 30000+N. *)
Theorem C1_running_counter :
  forall n contents filenames selected_city custom_city (fs fs' : FS)
         a sql table map_fig download,
    emitter_contract ->
    process_files n contents filenames selected_city custom_city fs
    = (fs', Ok (Completed a sql table map_fig download)) ->
    exists city (per_file : list (string * list (statement F))) fs_loop,
      let stmts := List.concat (List.map snd per_file) in
      let N := Z.of_nat (length stmts) in
      count (initial_state (F := F)) = 30000
      /\ run_trace city 30000 (rendered per_file) (30000 + N)
      /\ List.map fst per_file
         = List.filter dispatched
             (List.map snd (combine (default [] contents) filenames))
      /\ Forall (fun p => Forall (fun s => stmt_key s
                                           = working_street_id (fst p) city)
                            (snd p)) per_file
      /\ List.map stmt_id stmts = seqZ 30000 N
      /\ NoDup (List.map stmt_id stmts)
      /\ sql = String.concat "" (List.map render_statement stmts)
      /\ merge_kml_files KML_DIR (OsPath.join KML_DIR "merged_output.kml")
           (30000 + N) fs_loop = (fs', Ok tt).
Proof.
  intros n contents filenames sel cust fs fs' a sql table map_fig download
    Hcontract H.
  apply process_files_completed in H
    as (city & fs1 & fs2 & fs3 & st & _ & Hr & _ & _ & _ & Hp & Hm & _ & _
        & _ & _ & -> & _).
  apply process_uploads_trace in Hp as (outs & Htr & Hnames & Hsql).
  destruct (trace_statements _ _ _ _ Hcontract Htr)
    as (per_file & -> & Hids & Hkeys & Hc).
  simpl in Hc, Hids, Htr. exists city, per_file, fs3. cbv zeta.
  rewrite <- Hc. split; [reflexivity|]. split; [exact Htr|].
  split.
  { rewrite <- Hnames. unfold rendered. rewrite List.map_map.
    reflexivity. }
  split; [exact Hkeys|]. split; [exact Hids|].
  split; [rewrite Hids; apply NoDup_seqZ|]. split; [|exact Hm].
  simpl in Hsql. rewrite Hsql. unfold rendered.
  rewrite List.map_map. cbn [snd].
  rewrite List.concat_map, <- concat_concat, !List.map_map. reflexivity.
Qed.

End CounterRun.

(** ** The bundle *)


Lemma substring_full s : String.substring 0 (String.length s) s = s.
Proof. induction s as [|c s IH]; simpl; [reflexivity | rewrite IH; auto]. Qed.

Lemma prefix_split pre s :
  String.prefix pre s = true ->
  s = pre ++ String.substring (String.length pre)
               (String.length s - String.length pre) s.
Proof.
  revert s. induction pre as [|a pre IH]; intros s H.
  - rewrite str_app_nil_l. simpl String.length. rewrite Nat.sub_0_r.
    symmetry. apply substring_full.
  - destruct s as [|b s]; cbn [String.prefix] in H; [discriminate|].
    destruct (ascii_dec a b) as [<-|]; [|discriminate].
    rewrite str_app_cons. f_equal. simpl. apply IH. exact H.
Qed.

Lemma prefix_app pre f : String.prefix pre (pre ++ f) = true.
Proof.
  induction pre as [|a pre IH].
  - destruct f; reflexivity.
  - rewrite str_app_cons. cbn [String.prefix].
    destruct (ascii_dec a a); [exact IH | congruence].
Qed.

Lemma substring_app_drop pre f :
  String.substring (String.length pre)
    (String.length (pre ++ f) - String.length pre) (pre ++ f) = f.
Proof.
  induction pre as [|a pre IH].
  - rewrite str_app_nil_l. simpl. rewrite Nat.sub_0_r. apply substring_full.
  - rewrite str_app_cons. simpl. exact IH.
Qed.

Lemma entry_name_spec d p f :
  entry_name d p = Some f <-> p = d ++ "/" ++ f /\ plain_name f.
Proof.
  unfold entry_name, plain_name, Py.startswith. split.
  - destruct (String.prefix (d ++ "/") p) eqn:Hp; [|discriminate].
    apply prefix_split in Hp.
    set (f' := String.substring _ _ p) in *.
    destruct (Py.nonempty f') eqn:Hn; [|discriminate].
    destruct (bool_decide _) eqn:Hs; [discriminate|].
    intros [= <-]. split.
    + rewrite Hp at 1. apply str_app_assoc.
    + split; [exact Hn|]. apply bool_decide_eq_false in Hs. exact Hs.
  - intros [-> [Hn Hs]]. rewrite <- str_app_assoc.
    rewrite prefix_app, substring_app_drop, Hn.
    rewrite bool_decide_eq_false_2 by exact Hs. reflexivity.
Qed.

Lemma join_plain f : plain_name f -> OsPath.join KML_DIR f = "kml/" ++ f.
Proof.
  intros [Hn Hs]. unfold OsPath.join.
  destruct (Py.startswith f "/") eqn:Hp.
  - apply startswith_slash in Hp as [t ->]. exfalso. apply Hs.
    simpl. apply list_elem_of_here.
  - reflexivity.
Qed.

Lemma elem_of_listdir d (fs : FS) f :
  f ∈ listdir d fs <-> plain_name f /\ is_Some (fs !! (d ++ "/" ++ f)).
Proof.
  unfold listdir. rewrite list_elem_of_omap. split.
  - intros ([p data] & Hin & He). apply elem_of_map_to_list in Hin.
    simpl in He. apply entry_name_spec in He as [-> Hplain].
    split; [exact Hplain | eauto].
  - intros [Hplain [data Hd]]. exists (d ++ "/" ++ f, data). split.
    + apply elem_of_map_to_list. exact Hd.
    + simpl. apply entry_name_spec. auto.
Qed.

Lemma NoDup_omap_inj {A B} (g : A -> option B) (l : list A) :
  (forall x y b, g x = Some b -> g y = Some b -> x = y) ->
  NoDup l -> NoDup (omap g l).
Proof.
  intros Hinj. induction 1 as [|x l Hx Hl IH]; cbn [omap list_omap].
  - constructor.
  - destruct (g x) as [b|] eqn:Hg; [|exact IH].
    constructor; [|exact IH]. intros Hin.
    apply list_elem_of_omap in Hin as (y & Hy & Hgy).
    assert (x = y) as <- by eauto. contradiction.
Qed.

Lemma NoDup_listdir d (fs : FS) : NoDup (listdir d fs).
Proof.
  unfold listdir.
  assert (H : omap (fun kv : string * string => entry_name d (fst kv))
                (map_to_list fs)
              = omap (entry_name d) (List.map fst (map_to_list fs))).
  { induction (map_to_list fs) as [|kv l IH]; [reflexivity|].
    cbn [omap list_omap List.map]. rewrite IH. reflexivity. }
  rewrite H. apply NoDup_omap_inj.
  - intros x y b Hx Hy. apply entry_name_spec in Hx as [-> _].
    apply entry_name_spec in Hy as [-> _]. reflexivity.
  - apply NoDup_fst_map_to_list.
Qed.

Lemma zip_write_members names (fs fs' : FS) ms :
  zip_write names fs = (fs', Ok ms) ->
  List.map fst ms = List.filter (fun f => Py.endswith f ".kml") names
  /\ Forall (fun m => fs !! OsPath.join KML_DIR (fst m) = Some (snd m)) ms.
Proof.
  intros H0. pose proof (zip_write_fs _ _ _ _ H0) as ->. revert ms H0.
  induction names as [|f names IH]; intros ms; simpl.
  - unfold ret. intros [= <-]. split; constructor.
  - destruct (Py.endswith f ".kml") eqn:He; [|apply IH].
    intros H. apply bind_ok in H as (data & fs1 & Hr & H).
    unfold read_file in Hr.
    destruct (fs !! OsPath.join KML_DIR f) as [data'|] eqn:Hl;
      [|discriminate].
    injection Hr as <- <-.
    apply bind_ok in H as (more & fs2 & Hz & H).
    pose proof (zip_write_fs _ _ _ _ Hz) as ->.
    unfold ret in H. injection H as <-.
    apply IH in Hz as [Hn Hf]. simpl. rewrite Hn.
    split; [reflexivity|]. constructor; [exact Hl | exact Hf].
Qed.

Section Bundle.

Context {F : Type} {RT : Runtime F} {P : Processor}.

(** C9. What the code puts in the archive of a completed run: exactly
    the files that stand directly in the markup directory with a name
    ending in the lower-case suffix [.kml], each once, with the contents
    they have after the merge step has run; the merge step was told to
    write [merged_output.kml] into that directory, and if it is there it
    is in the archive.  The suffix test of line 167 is case-sensitive
    while the dispatch of line 110 lower-cases the extension, so a
    document that was processed under a name such as [x.KML] stands in
    the directory and is left out of the archive. *)
Theorem C9_bundle_is_markup_directory :
  forall n contents filenames selected_city custom_city (fs fs' : FS)
         a sql table map_fig download,
    process_files n contents filenames selected_city custom_city fs
    = (fs', Ok (Completed a sql table map_fig download)) ->
    (forall f data,
        (f, data) ∈ members download <->
        plain_name f /\ Py.endswith f ".kml" = true
        /\ fs' !! ("kml/" ++ f) = Some data)
    /\ NoDup (List.map fst (members download))
    /\ (exists fs_loop c,
           merge_kml_files KML_DIR "kml/merged_output.kml" c fs_loop
           = (fs', Ok tt))
    /\ (forall data,
           fs' !! "kml/merged_output.kml" = Some data ->
           ("merged_output.kml", data) ∈ members download).
Proof.
  intros n contents filenames sel cust fs fs' a sql table map_fig download H.
  apply process_files_completed in H
    as (city & fs1 & fs2 & fs3 & st & _ & _ & _ & _ & _ & _ & Hm & Hz & _).
  apply zip_write_members in Hz as [Hnames Hdata].
  assert (Hchar : forall f data,
             (f, data) ∈ members download <->
             plain_name f /\ Py.endswith f ".kml" = true
             /\ fs' !! ("kml/" ++ f) = Some data).
  { intros f data. split.
    - intros Hin.
      assert (Hf : f ∈ List.map fst (members download)).
      { apply list_elem_of_In, in_map_iff. exists (f, data).
        split; [reflexivity | apply list_elem_of_In; exact Hin]. }
      rewrite Hnames in Hf. apply list_elem_of_In, filter_In in Hf
        as [Hl He]. apply list_elem_of_In, elem_of_listdir in Hl
        as [Hplain _].
      split; [exact Hplain|]. split; [exact He|].
      rewrite Forall_forall in Hdata. specialize (Hdata _ Hin).
      simpl in Hdata. rewrite join_plain in Hdata by exact Hplain.
      exact Hdata.
    - intros (Hplain & He & Hl).
      assert (Hf : f ∈ List.map fst (members download)).
      { rewrite Hnames. apply list_elem_of_In, filter_In. split; [|exact He].
        apply list_elem_of_In, elem_of_listdir. split; [exact Hplain|].
        exists data. exact Hl. }
      apply list_elem_of_In, in_map_iff in Hf as ([f' data'] & Hff & Hin).
      simpl in Hff. subst f'. apply list_elem_of_In in Hin.
      rewrite Forall_forall in Hdata. pose proof (Hdata _ Hin) as Hd.
      simpl in Hd. rewrite join_plain in Hd by exact Hplain.
      assert (data' = data) as -> by congruence. exact Hin. }
  split; [exact Hchar|]. split.
  - rewrite Hnames. apply NoDup_ListNoDup, List.NoDup_filter,
      NoDup_ListNoDup, NoDup_listdir.
  - split; [exists fs3, (count st); exact Hm|].
    intros data Hd. apply Hchar. split; [|split].
    + split; [reflexivity|].
      apply (bool_decide_eq_false_1
               (OsPath.sep ∈ String.list_ascii_of_string "merged_output.kml")).
      reflexivity.
    + reflexivity.
    + exact Hd.
Qed.

End Bundle.

(** ** Dispatch by extension, for a name that can be written *)


Section DispatchNames.

Context {F : Type} {RT : Runtime F} {P : Processor}.


End DispatchNames.

(** ** Failures inside the loop *)

Section Failures.

Context {F : Type} {RT : Runtime F} {P : Processor}.

(** Lines 126-135 stand outside the [try]: what the sanitizer or the
    extractor raises leaves [process_markup]. *)
Lemma process_markup_sanitize_raises city (st : run_state F) filename
    kml_path (fs fs' : FS) e :
  remove_cdata_from_kml kml_path fs = (fs', Raise e) ->
  process_markup city st filename kml_path fs = (fs', Raise e).
Proof. intros H. unfold process_markup. apply bind_raise_l. exact H. Qed.

Lemma process_markup_extract_raises city (st : run_state F) filename
    kml_path cleaned_kml (fs fs1 fs' : FS) e :
  remove_cdata_from_kml kml_path fs = (fs1, Ok cleaned_kml) ->
  extract_coordinates_from_kml cleaned_kml (count st)
    (working_street_id filename city) fs1 = (fs', Raise e) ->
  process_markup city st filename kml_path fs = (fs', Raise e).
Proof.
  intros H1 H2. unfold process_markup.
  rewrite (bind_step _ _ _ _ _ H1). apply bind_raise_l. exact H2.
Qed.

(** Lines 138-159 stand inside it: once the sanitizer and the extractor
    have returned, the file cannot fail any more. *)
Lemma process_markup_returns city (st : run_state F) filename kml_path
    cleaned_kml (fs fs1 fs' : FS) r :
  remove_cdata_from_kml kml_path fs = (fs1, Ok cleaned_kml) ->
  extract_coordinates_from_kml cleaned_kml (count st)
    (working_street_id filename city) fs1 = (fs', Ok r) ->
  exists st', process_markup city st filename kml_path fs = (fs', Ok st').
Proof.
  intros H1 H2. unfold process_markup.
  rewrite (bind_step _ _ _ _ _ H1), (bind_step _ _ _ _ _ H2).
  unfold bind, get_fs, ret. eauto.
Qed.

(** An exception in one iteration ends the loop: the files after it are
    not touched. *)
Lemma process_uploads_raises city (st st1 : run_state F) before upload after
    (fs fs1 fs' : FS) e :
  process_uploads city st before fs = (fs1, Ok st1) ->
  process_file city st1 upload fs1 = (fs', Raise e) ->
  process_uploads city st (before ++ upload :: after) fs = (fs', Raise e).
Proof.
  revert st fs. induction before as [|u before IH]; intros st fs Hb Hf.
  - simpl in Hb. unfold ret in Hb. injection Hb as <- <-.
    simpl. apply bind_raise_l. exact Hf.
  - simpl in Hb. apply bind_ok in Hb as (st2 & fs2 & Hu & Hb).
    rewrite <- app_comm_cons. simpl. rewrite (bind_step _ _ _ _ _ Hu).
    apply IH; assumption.
Qed.

(** An exception in the loop is the outcome of the callback. *)
Lemma process_files_raises n contents filenames selected_city custom_city
    city (fs fs1 fs2 fs' : FS) e :
  truthy_list contents = true ->
  resolve_city selected_city custom_city = Some city ->
  Py.nonempty city = true ->
  delete_files_in_folder KMZ_DIR fs = (fs1, Ok tt) ->
  delete_files_in_folder KML_DIR fs1 = (fs2, Ok tt) ->
  process_uploads city (initial_state (F := F))
    (combine (default [] contents) filenames) fs2 = (fs', Raise e) ->
  process_files n contents filenames selected_city custom_city fs
  = (fs', Raise e).
Proof.
  intros Hc Hr Hn Hd1 Hd2 Hp. unfold process_files. rewrite Hc, Hr.
  destruct city as [|c0 city]; [discriminate|]. cbn [negb].
  rewrite (bind_step _ _ _ _ _ Hd1), (bind_step _ _ _ _ _ Hd2).
  apply bind_raise_l. exact Hp.
Qed.

(** C4. What the code does with a file that fails at the sanitize or
    extract stage: when the uploads before it have been processed, the
    file is a decoded [.kml] upload, and [remove_cdata_from_kml] or
    [extract_coordinates_from_kml] raises on it, the callback ends with
    that exception.  No response is returned: the uploads after the file
    are not processed, nothing is merged or bundled. *)
Theorem C4_stage_failure_aborts_run :
  forall n contents filenames selected_city custom_city city
         (fs fs1 fs2 : FS) before content filename after
         (st : run_state F) (fs3 : FS) decoded (fs' : FS) e,
    truthy_list contents = true ->
    resolve_city selected_city custom_city = Some city ->
    Py.nonempty city = true ->
    delete_files_in_folder KMZ_DIR fs = (fs1, Ok tt) ->
    delete_files_in_folder KML_DIR fs1 = (fs2, Ok tt) ->
    combine (default [] contents) filenames
    = (before ++ (content, filename) :: after)%list ->
    process_uploads city initial_state before fs2 = (fs3, Ok st) ->
    decode_upload content = Ok decoded ->
    upload_ext filename = ".kml" ->
    let kml_path := OsPath.join KML_DIR filename in
    let file_path := OsPath.join KMZ_DIR filename in
    let fs4 := <[kml_path := decoded]>
                 (delete file_path (<[file_path := decoded]> fs3)) in
    (remove_cdata_from_kml kml_path fs4 = (fs', Raise e)
     \/ exists cleaned_kml fs5,
          remove_cdata_from_kml kml_path fs4 = (fs5, Ok cleaned_kml)
          /\ extract_coordinates_from_kml cleaned_kml (count st)
               (working_street_id filename city) fs5 = (fs', Raise e)) ->
    process_files n contents filenames selected_city custom_city fs
    = (fs', Raise e).
Proof.
  intros n contents filenames sel cust city fs fs1 fs2 before content
    filename after st fs3 decoded fs' e Hc Hr Hn Hd1 Hd2 Hsplit Hb Hdec
    Hext kml_path file_path fs4 Hfail.
  apply (process_files_raises _ _ _ _ _ city fs fs1 fs2); try assumption.
  rewrite Hsplit. apply (process_uploads_raises _ _ st _ _ _ _ fs3);
    [exact Hb|].
  rewrite (process_file_kml _ _ _ _ _ _ Hdec Hext).
  fold file_path kml_path fs4.
  destruct Hfail as [Hs | (cleaned & fs5 & Hs & He)].
  - apply process_markup_sanitize_raises. exact Hs.
  - eapply process_markup_extract_raises; eassumption.
Qed.

End Failures.

(** ** The sample runs *)

Lemma batch_run :
  process_files (RT := Runs.rt) (P := Runs.proc) 1
    (Some Runs.batch_contents) Runs.batch_filenames
    (Some "Zagreb") (Some " New York ") ∅
  = (Runs.batch_fs,
     Ok (Completed ProcessingComplete Runs.batch_sql Runs.batch_table
           Runs.batch_map Runs.batch_bundle)).
Proof. vm_compute. reflexivity. Qed.

Lemma batch_contract :
  emitter_contract (TS := Sample.text_shape) (P := Runs.proc).
Proof. apply spec_emitter_contract. Qed.

Lemma C1_running_counter_witness :
  exists per_file : list (string * list (statement string)),
    List.map fst per_file = ["line.kml"; Runs.uuid_name; "a.kmz"]
    /\ List.map stmt_id (List.concat (List.map snd per_file))
       = seqZ 30000
           (Z.of_nat (length (List.concat (List.map snd per_file))))
    /\ Runs.batch_sql
       = String.concat ""
           (List.map (render_statement (TextShape := Sample.text_shape))
              (List.concat (List.map snd per_file))).
Proof.
  destruct (C1_running_counter (RT := Runs.rt) (TS := Sample.text_shape)
              (P := Runs.proc) 1 (Some Runs.batch_contents)
              Runs.batch_filenames (Some "Zagreb") (Some " New York ") ∅
              Runs.batch_fs _ _ _ _ _ batch_contract batch_run)
    as (city & per_file & fs_loop & _ & _ & Hnames & _ & Hids & _ & Hsql & _).
  exists per_file. split; [exact Hnames|]. split; [exact Hids | exact Hsql].
Defined.

Lemma C8_statement_text_witness :
  exists outs : list (string * list string),
    List.map fst outs = ["line.kml"; Runs.uuid_name; "a.kmz"]
    /\ Runs.batch_sql = String.concat "" (List.concat (List.map snd outs)).
Proof.
  destruct (C8_statement_text_in_file_order (RT := Runs.rt) (P := Runs.proc)
              1 (Some Runs.batch_contents) Runs.batch_filenames
              (Some "Zagreb") (Some " New York ") ∅ Runs.batch_fs _ _ _ _ _
              batch_run)
    as (city & outs & c_final & _ & _ & Hnames & _ & Hsql).
  exists outs. split; [exact Hnames | exact Hsql].
Defined.

(** One valid document uploaded as [x.KML]: it takes the markup branch,
    is sanitized and extracted, and stands in the markup directory when
    the archive is written. *)
Lemma upper_case_run :
  process_files (RT := Runs.rt) (P := Runs.proc) 1
    (Some [Sample.upload Sample.line_b64]) ["x.KML"] (Some "Zagreb") None ∅
  = (upper_case_fs,
     Ok (Completed ProcessingComplete upper_case_sql upper_case_table
           upper_case_map upper_case_bundle)).
Proof. vm_compute. reflexivity. Qed.

(** C9 at the upload [x.KML]: the processed document is in the markup
    directory at bundle time and has the markup extension for the
    dispatch, yet the archive holds the merged document only. *)
Lemma C9_upper_case_document_left_out :
  dispatched "x.KML" = true
  /\ upper_case_fs !! "kml/x.KML" = Some Sample.line_text
  /\ members upper_case_bundle = [("merged_output.kml", "<merged/>")]
  /\ ~ (exists data, ("x.KML", data) ∈ members upper_case_bundle).
Proof.
  destruct (C9_bundle_is_markup_directory (RT := Runs.rt) (P := Runs.proc)
              1 (Some [Sample.upload Sample.line_b64]) ["x.KML"]
              (Some "Zagreb") None ∅ upper_case_fs _ _ _ _ _
              upper_case_run)
    as (Hchar & _).
  split; [reflexivity|]. split; [vm_compute; reflexivity|].
  split; [reflexivity|].
  intros [data Hin]. apply Hchar in Hin as (_ & He & _).
  vm_compute in He. discriminate He.
Defined.



Lemma C6_no_city_witness :
  process_files (RT := Runs.rt) (P := Runs.proc) 1
    (Some [Sample.upload Sample.line_b64]) ["line.kml"] None (Some "") ∅
  = (∅, Ok (Rejected NoInputSelected)).
Proof.
  exact (C6_no_city_rejected_before_io (RT := Runs.rt) (P := Runs.proc) 1
           (Some [Sample.upload Sample.line_b64]) ["line.kml"] None (Some "")
           ∅ eq_refl eq_refl eq_refl).
Defined.

(** With no file and no city the run is rejected for the missing files,
    not for the missing city. *)
Lemma C6_counterexample :
  process_files (RT := Runs.rt) (P := Runs.proc) 1 (Some []) [] None None ∅
  = (∅, Ok (Rejected EmptyUpload))
  /\ process_files (RT := Runs.rt) (P := Runs.proc) 1 (Some []) [] None None ∅
     <> (∅, Ok (Rejected NoInputSelected)).
Proof. split; [reflexivity | discriminate]. Qed.

Lemma C10_custom_city_witness :
  resolve_city (Some "Zagreb") (Some "  ") = Some ""
  /\ process_files (RT := Runs.rt) (P := Runs.proc) 1
       (Some [Sample.upload Sample.line_b64]) ["line.kml"]
       (Some "Zagreb") (Some "  ") ∅
     = (∅, Ok (Rejected NoInputSelected)).
Proof.
  destruct (C10_custom_city_precedence (RT := Runs.rt) (P := Runs.proc) 1
              (Some [Sample.upload Sample.line_b64]) ["line.kml"]
              (Some "Zagreb") "  " ∅ eq_refl) as (Hres & _ & Hrej).
  split; [exact Hres | exact (Hrej eq_refl eq_refl)].
Defined.

(** With no file, a whitespace-only custom city and a selected city, the
    run is rejected for the missing files, not for the missing city. *)
Lemma C10_counterexample :
  all_space "  " = true
  /\ process_files (RT := Runs.rt) (P := Runs.proc) 1 (Some []) []
       (Some "Zagreb") (Some "  ") ∅
     = (∅, Ok (Rejected EmptyUpload))
  /\ process_files (RT := Runs.rt) (P := Runs.proc) 1 (Some []) []
       (Some "Zagreb") (Some "  ") ∅
     <> (∅, Ok (Rejected NoInputSelected)).
Proof. split; [reflexivity|]. split; [reflexivity | discriminate]. Qed.

(** A batch of two markup files whose first document is not
    well-formed: the sanitizer fails with MalformedMarkup on the first
    file, and that is the outcome of the whole callback.  The second
    file is never written or read; no statement text, merged document or
    bundle is produced; the file system holds only the first file, moved
    to the markup directory. *)
Lemma C4_malformed_file_aborts_batch :
  process_files (RT := Runs.rt) (P := Runs.proc) 1
    (Some [Sample.upload Sample.broken_b64; Sample.upload Sample.line_b64])
    ["bad.kml"; "line.kml"] (Some "Zagreb") None ∅
  = (list_to_map [("kml/bad.kml", Sample.broken_text)],
     Raise MalformedMarkup).
Proof.
  apply (C4_stage_failure_aborts_run (RT := Runs.rt) (P := Runs.proc) 1
           (Some [Sample.upload Sample.broken_b64;
                  Sample.upload Sample.line_b64])
           ["bad.kml"; "line.kml"] (Some "Zagreb") None "Zagreb"
           ∅ ∅ ∅ [] (Sample.upload Sample.broken_b64) "bad.kml"
           [(Sample.upload Sample.line_b64, "line.kml")]
           initial_state ∅ Sample.broken_text).
  - reflexivity.
  - reflexivity.
  - reflexivity.
  - vm_compute. reflexivity.
  - vm_compute. reflexivity.
  - reflexivity.
  - reflexivity.
  - reflexivity.
  - reflexivity.
  - left. vm_compute. reflexivity.
Defined.

(** ** Worked examples *)

Example splitext_plain : OsPath.splitext "track.kmz" = ("track", ".kmz").
Proof. reflexivity. Qed.

Example splitext_two_dots :
  OsPath.splitext "a.tar.KML" = ("a.tar", ".KML").
Proof. reflexivity. Qed.

Example splitext_hidden : OsPath.splitext ".kmz" = (".kmz", "").
Proof. reflexivity. Qed.

Example splitext_dir_dot : OsPath.splitext "a.b/c" = ("a.b/c", "").
Proof. reflexivity. Qed.

Example split_ws_example :
  Py.split_ws "  15.97,45.80,0
 15.98,45.81,0 " = ["15.97,45.80,0"; "15.98,45.81,0"].
Proof. reflexivity. Qed.

Example split_comma_example :
  Py.split "," "15.97,,0" = ["15.97"; ""; "0"].
Proof. reflexivity. Qed.

Example strip_example : Py.strip "  New York	" = "New York".
Proof. reflexivity. Qed.

Example key_from_uuid :
  working_street_id "track_3f2504e0-4f89-11d3-9a0c-0305e82c3301.kml" "Zagreb"
  = "3f2504e0-4f89-11d3-9a0c-0305e82c3301".
Proof. reflexivity. Qed.

Example key_from_city : working_street_id "line.kml" "New York" = "New_York".
Proof. reflexivity. Qed.

(** Two groups of three fields: two statements, consecutive identifiers. *)
Example blob_two_tuples :
  fold_left (Spec.emit_group (RT := Runs.rt) "Zagreb")
    (Py.split_ws "15.97,45.80,0 15.98,45.81,0") ([], 30000)
  = ([{| stmt_id := 30000; stmt_key := "Zagreb";
         stmt_lon := "15.97"; stmt_lat := "45.80" |};
      {| stmt_id := 30001; stmt_key := "Zagreb";
         stmt_lon := "15.98"; stmt_lat := "45.81" |}], 30002).
Proof. reflexivity. Qed.

(** A group of one field is skipped. *)
Example blob_malformed_group :
  fold_left (Spec.emit_group (RT := Runs.rt) "Zagreb")
    (Py.split_ws "15.97 15.98,45.81") ([], 30000)
  = ([{| stmt_id := 30000; stmt_key := "Zagreb";
         stmt_lon := "15.98"; stmt_lat := "45.81" |}], 30001).
Proof. reflexivity. Qed.

(** * Further properties *)

(** ** Splitting and stripping *)

Lemma chars_app s t : chars (s ++ t) = (chars s ++ chars t)%list.
Proof.
  unfold chars. induction s as [|c s IH]; [reflexivity|].
  rewrite str_app_cons. simpl. rewrite IH. reflexivity.
Qed.

Lemma split_not_nil sep s : Py.split sep s <> [].
Proof.
  destruct s as [|c s]; simpl; [discriminate|].
  destruct (Ascii.eqb c sep); [discriminate|].
  destruct (Py.split sep s); discriminate.
Qed.

Lemma concat_sep_head sep c h t :
  String.concat sep (String c h :: t) = String c (String.concat sep (h :: t)).
Proof. destruct t; reflexivity. Qed.

Lemma concat_sep_two sep x y l :
  String.concat sep (x :: y :: l) = x ++ sep ++ String.concat sep (y :: l).
Proof. reflexivity. Qed.

(** X1. Splitting on a separator loses nothing: joining the fields with
    the separator gives the text back; there is always at least one
    field, one more than there are separators in the text; no field
    contains the separator. *)
Theorem X1_split_join_round_trip :
  forall sep s,
    String.concat (String sep EmptyString) (Py.split sep s) = s
    /\ length (Py.split sep s) = S (count_occ ascii_dec (chars s) sep)
    /\ Forall (fun f => sep ∉ chars f) (Py.split sep s).
Proof.
  intros sep s. induction s as [|c s (IHc & IHl & IHf)].
  - simpl. split; [reflexivity|]. split; [reflexivity|].
    constructor; [|constructor]. unfold chars. simpl. apply not_elem_of_nil.
  - cbn [Py.split]. destruct (Ascii.eqb c sep) eqn:Hc.
    + apply Ascii.eqb_eq in Hc as ->. split; [|split].
      * destruct (Py.split sep s) as [|y l] eqn:Hs;
          [exfalso; eapply split_not_nil; eauto|].
        rewrite concat_sep_two, IHc. reflexivity.
      * cbn [length]. rewrite IHl. unfold chars. simpl.
        destruct (ascii_dec sep sep); [reflexivity | congruence].
      * constructor; [|exact IHf]. unfold chars. simpl.
        apply not_elem_of_nil.
    + apply Ascii.eqb_neq in Hc.
      destruct (Py.split sep s) as [|h t] eqn:Hs;
        [exfalso; eapply split_not_nil; eauto|].
      split; [|split].
      * rewrite concat_sep_head, IHc. reflexivity.
      * cbn [length] in *. rewrite IHl. unfold chars. simpl.
        destruct (ascii_dec c sep); [congruence | reflexivity].
      * inversion IHf as [|? ? Hh Ht]; subst. constructor; [|exact Ht].
        unfold chars in *. simpl. intros Hin.
        apply elem_of_cons in Hin as [Hin|Hin]; [congruence | contradiction].
Qed.

Lemma all_chars_app p s t :
  Py.all_chars p (s ++ t) = Py.all_chars p s && Py.all_chars p t.
Proof.
  induction s as [|c s IH]; [reflexivity|].
  rewrite str_app_cons. simpl. rewrite IH, andb_assoc. reflexivity.
Qed.

Lemma nonempty_app_char cur c : Py.nonempty (cur ++ String c "") = true.
Proof. destruct cur; reflexivity. Qed.

Lemma split_ws_from_groups cur s :
  no_space cur = true ->
  Forall (fun g => Py.nonempty g = true /\ no_space g = true)
    (Py.split_ws_from cur s).
Proof.
  revert cur. induction s as [|c s IH]; intros cur Hcur; simpl.
  - destruct (Py.nonempty cur) eqn:Hn; [|constructor].
    constructor; [auto | constructor].
  - destruct (Py.isspace c) eqn:Hc.
    + destruct (Py.nonempty cur) eqn:Hn.
      * constructor; [auto|]. apply IH. reflexivity.
      * apply IH. reflexivity.
    + apply IH. unfold no_space in *. rewrite all_chars_app, Hcur. simpl.
      rewrite Hc. reflexivity.
Qed.

Lemma split_ws_from_lstrip s :
  Py.split_ws_from "" (Py.lstrip s) = Py.split_ws_from "" s.
Proof.
  induction s as [|c s IH]; [reflexivity|]. simpl.
  destruct (Py.isspace c) eqn:Hc; [exact IH|]. simpl. rewrite Hc.
  reflexivity.
Qed.

Lemma split_ws_from_rstrip cur s :
  Py.split_ws_from cur (Py.rstrip s) = Py.split_ws_from cur s.
Proof.
  revert cur. induction s as [|c s IH]; intros cur; [reflexivity|].
  cbn [Py.rstrip]. cbv zeta.
  destruct (Py.isspace c) eqn:Hc; cbn [andb].
  - destruct (Py.nonempty (Py.rstrip s)) eqn:Hn; cbn [negb].
    + cbn [Py.split_ws_from]. rewrite Hc, !IH. reflexivity.
    + cbn [Py.split_ws_from]. rewrite Hc.
      assert (Hr : Py.rstrip s = "") by (destruct (Py.rstrip s);
                                         [reflexivity | discriminate]).
      pose proof (IH "") as H0. rewrite Hr in H0. simpl in H0.
      rewrite <- H0. reflexivity.
  - cbn [Py.split_ws_from]. rewrite Hc. apply IH.
Qed.

Lemma split_ws_all_space s : all_space s = true -> Py.split_ws s = [].
Proof.
  unfold all_space, Py.split_ws. induction s as [|c s IH]; simpl;
    [reflexivity|].
  intros H. apply andb_prop in H as [Hc Hs]. rewrite Hc. auto.
Qed.

(** X2. The groups read from a coordinates text are the runs of
    characters between whitespace: none is empty and none contains a
    whitespace character; a text of whitespace only gives no group; and
    stripping the text first, as line 145 does, does not change the
    groups. *)
Theorem X2_whitespace_groups :
  forall text,
    Forall (fun g => Py.nonempty g = true /\ no_space g = true)
      (Py.split_ws text)
    /\ Py.split_ws (Py.strip text) = Py.split_ws text
    /\ (all_space text = true -> Py.split_ws text = []).
Proof.
  intros text. split; [|split].
  - apply split_ws_from_groups. reflexivity.
  - unfold Py.split_ws, Py.strip.
    rewrite split_ws_from_rstrip. apply split_ws_from_lstrip.
  - apply split_ws_all_space.
Qed.

Lemma all_space_app s t : all_space (s ++ t) = all_space s && all_space t.
Proof. apply all_chars_app. Qed.

Lemma lstrip_split s :
  exists pre, s = pre ++ Py.lstrip s /\ all_space pre = true.
Proof.
  induction s as [|c s (pre & Hs & Hp)].
  - exists "". split; reflexivity.
  - simpl. destruct (Py.isspace c) eqn:Hc.
    + exists (String c pre). split.
      * rewrite str_app_cons, <- Hs. reflexivity.
      * unfold all_space in *. simpl. rewrite Hc. exact Hp.
    + exists "". split; reflexivity.
Qed.

Lemma lstrip_head s c t : Py.lstrip s = String c t -> Py.isspace c = false.
Proof.
  induction s as [|d s IH]; simpl; [discriminate|].
  destruct (Py.isspace d) eqn:Hd; [exact IH|]. intros [= <- _]. exact Hd.
Qed.

Lemma lstrip_fixed s :
  (forall c t, s = String c t -> Py.isspace c = false) -> Py.lstrip s = s.
Proof.
  destruct s as [|c s]; [reflexivity|]. intros H. simpl.
  rewrite (H c s eq_refl). reflexivity.
Qed.

Lemma rstrip_split s :
  exists post, s = Py.rstrip s ++ post /\ all_space post = true.
Proof.
  induction s as [|c s (post & Hs & Hp)].
  - exists "". split; reflexivity.
  - cbn [Py.rstrip]. cbv zeta.
    destruct (Py.isspace c && negb (Py.nonempty (Py.rstrip s))) eqn:Hc.
    + apply andb_prop in Hc as [Hc Hn].
      assert (Hr : Py.rstrip s = "") by (destruct (Py.rstrip s);
                                         [reflexivity | discriminate]).
      rewrite Hr in Hs. exists (String c post). split.
      * rewrite Hs at 1. reflexivity.
      * unfold all_space in *. simpl. rewrite Hc. exact Hp.
    + exists post. split; [|exact Hp].
      rewrite str_app_cons, <- Hs. reflexivity.
Qed.

Lemma rstrip_last s c :
  last_char (Py.rstrip s) = Some c -> Py.isspace c = false.
Proof.
  induction s as [|d s IH]; [discriminate|].
  cbn [Py.rstrip]. cbv zeta.
  destruct (Py.rstrip s) as [|e r] eqn:Hr.
  - simpl. rewrite andb_true_r. destruct (Py.isspace d) eqn:Hd;
      [discriminate|]. simpl. intros [= <-]. exact Hd.
  - simpl. rewrite andb_false_r. exact IH.
Qed.

Lemma rstrip_head c t :
  Py.isspace c = false -> Py.rstrip (String c t) = String c (Py.rstrip t).
Proof. intros H. cbn [Py.rstrip]. cbv zeta. rewrite H. reflexivity. Qed.

Lemma rstrip_idem s : Py.rstrip (Py.rstrip s) = Py.rstrip s.
Proof.
  induction s as [|c s IH]; [reflexivity|].
  cbn [Py.rstrip]. cbv zeta.
  destruct (Py.isspace c && negb (Py.nonempty (Py.rstrip s))) eqn:Hc;
    [reflexivity|].
  cbn [Py.rstrip]. cbv zeta. rewrite IH, Hc. reflexivity.
Qed.

Lemma strip_head s c t : Py.strip s = String c t -> Py.isspace c = false.
Proof.
  unfold Py.strip. destruct (Py.lstrip s) as [|d u] eqn:Hl;
    [discriminate|].
  pose proof (lstrip_head _ _ _ Hl) as Hd.
  rewrite (rstrip_head _ _ Hd). intros [= <- _]. exact Hd.
Qed.

Lemma strip_empty s : Py.strip s = "" -> all_space s = true.
Proof.
  intros He.
  destruct (lstrip_split s) as (pre & Hs & Hpre).
  destruct (rstrip_split (Py.lstrip s)) as (post & Hl & Hpost).
  unfold Py.strip in He. rewrite He in Hl. rewrite Hs, Hl.
  rewrite !all_space_app, Hpre, Hpost. reflexivity.
Qed.

(** X3. Stripping removes whitespace at both ends and nothing else: the
    text is a whitespace prefix, the stripped text and a whitespace
    suffix; the stripped text neither starts nor ends with whitespace;
    stripping twice is stripping once; and the result is empty exactly
    for a text of whitespace only. *)
Theorem X3_strip_both_ends :
  forall s,
    (exists pre post,
        s = pre ++ Py.strip s ++ post
        /\ all_space pre = true /\ all_space post = true)
    /\ (forall c t, Py.strip s = String c t -> Py.isspace c = false)
    /\ (forall c, last_char (Py.strip s) = Some c -> Py.isspace c = false)
    /\ Py.strip (Py.strip s) = Py.strip s
    /\ (Py.strip s = "" <-> all_space s = true).
Proof.
  intros s.
  destruct (lstrip_split s) as (pre & Hs & Hpre).
  destruct (rstrip_split (Py.lstrip s)) as (post & Hl & Hpost).
  assert (Hdec : s = pre ++ Py.strip s ++ post).
  { unfold Py.strip. rewrite <- Hl. exact Hs. }
  split; [exists pre, post; auto|].
  split; [apply strip_head|].
  split; [intros c; apply rstrip_last|].
  split.
  - unfold Py.strip at 1.
    rewrite (lstrip_fixed (Py.strip s)) by apply strip_head.
    unfold Py.strip. apply rstrip_idem.
  - split; [apply strip_empty | apply strip_all_space].
Qed.

(** ** The extension of a file name *)

Lemma rfind_none c p : OsPath.rfind c p = None -> c ∉ chars p.
Proof.
  unfold chars. induction p as [|d p IH]; simpl; [intros; apply not_elem_of_nil|].
  destruct (OsPath.rfind c p); [discriminate|].
  destruct (Ascii.eqb d c) eqn:Hd; [discriminate|].
  apply Ascii.eqb_neq in Hd. intros _ Hin.
  apply elem_of_cons in Hin as [Hin|Hin]; [congruence | apply IH; auto].
Qed.

Lemma rfind_split c p i :
  OsPath.rfind c p = Some i ->
  exists pre post,
    p = pre ++ String c post /\ String.length pre = i /\ c ∉ chars post.
Proof.
  revert i. induction p as [|d p IH]; intros i; simpl; [discriminate|].
  destruct (OsPath.rfind c p) as [j|] eqn:Hr.
  - intros [= <-]. destruct (IH j eq_refl) as (pre & post & -> & Hl & Hn).
    exists (String d pre), post. repeat split; [simpl; lia | exact Hn].
  - destruct (Ascii.eqb d c) eqn:Hd; [|discriminate].
    apply Ascii.eqb_eq in Hd as ->. intros [= <-].
    exists "", p. repeat split. apply rfind_none. exact Hr.
Qed.

Lemma rfind_ge_get c p k :
  String.get k p = Some c -> exists j, OsPath.rfind c p = Some j /\ (k <= j)%nat.
Proof.
  revert k. induction p as [|d p IH]; intros k; simpl; [discriminate|].
  destruct k as [|k].
  - intros [= ->]. destruct (OsPath.rfind c p) as [j|].
    + exists (S j). split; [reflexivity | lia].
    + rewrite Ascii.eqb_refl. exists 0%nat. split; [reflexivity | lia].
  - intros H. apply IH in H as (j & -> & Hj). exists (S j).
    split; [reflexivity | lia].
Qed.

Lemma get_elem k s c : String.get k s = Some c -> c ∈ chars s.
Proof.
  unfold chars. revert k. induction s as [|d s IH]; intros k; simpl;
    [discriminate|].
  destruct k as [|k].
  - intros [= ->]. apply list_elem_of_here.
  - intros H. apply list_elem_of_further. eapply IH. exact H.
Qed.

Lemma elem_get s c : c ∈ chars s -> exists k, String.get k s = Some c.
Proof.
  unfold chars. induction s as [|d s IH]; simpl; intros H.
  - apply elem_of_nil in H. contradiction.
  - apply elem_of_cons in H as [->|H].
    + exists 0%nat. reflexivity.
    + destruct (IH H) as [k Hk]. exists (S k). exact Hk.
Qed.

Lemma get_app_l pre x k :
  (k < String.length pre)%nat -> String.get k (pre ++ x) = String.get k pre.
Proof.
  revert k. induction pre as [|c pre IH]; intros k Hk; simpl in Hk; [lia|].
  rewrite str_app_cons. destruct k as [|k]; [reflexivity|].
  simpl. apply IH. lia.
Qed.

Lemma get_app_r pre x k :
  String.get (String.length pre + k) (pre ++ x) = String.get k x.
Proof.
  induction pre as [|c pre IH]; [reflexivity|].
  rewrite str_app_cons. simpl. exact IH.
Qed.

Lemma get_lt s k :
  (k < String.length s)%nat -> exists c, String.get k s = Some c.
Proof.
  revert k. induction s as [|d s IH]; intros k Hk; simpl in Hk; [lia|].
  destruct k as [|k]; [exists d; reflexivity|]. simpl. apply IH. lia.
Qed.

Lemma substring_app_take pre x :
  String.substring 0 (String.length pre) (pre ++ x) = pre.
Proof.
  induction pre as [|c pre IH].
  - simpl. destruct x; reflexivity.
  - rewrite str_app_cons. simpl. rewrite IH. reflexivity.
Qed.

Lemma has_non_dot_found p i n :
  OsPath.has_non_dot p i n = true ->
  exists k, (i <= k < i + n)%nat
            /\ forall c, String.get k p = Some c -> c <> OsPath.extsep.
Proof.
  revert i. induction n as [|n IH]; intros i; simpl; [discriminate|].
  destruct (String.get i p) as [c|] eqn:Hg.
  - destruct (Ascii.eqb c OsPath.extsep) eqn:Hc.
    + intros H. apply IH in H as (k & Hk & Hne). exists k. split; [lia|auto].
    + intros _. exists i. split; [lia|]. intros c' Hc'.
      apply Ascii.eqb_neq in Hc. congruence.
  - intros _. exists i. split; [lia|]. intros c' Hc'. congruence.
Qed.

Lemma app_eq_len s1 t1 s2 t2 :
  s1 ++ t1 = s2 ++ t2 ->
  (String.length s2 <= String.length s1)%nat ->
  exists m, s1 = s2 ++ m /\ t2 = m ++ t1.
Proof.
  revert s1. induction s2 as [|c s2 IH]; intros s1 He Hl.
  - exists s1. rewrite !str_app_nil_l in *. auto.
  - destruct s1 as [|d s1]; [simpl in Hl; lia|].
    rewrite !str_app_cons in He. injection He as -> He.
    destruct (IH s1 He) as (m & -> & ->); [simpl in Hl; lia|].
    exists m. rewrite str_app_cons. auto.
Qed.

Lemma last_char_snoc a c : last_char (a ++ String c "") = Some c.
Proof.
  induction a as [|d a IH]; [reflexivity|].
  rewrite str_app_cons. cbn [last_char].
  destruct (a ++ String c "") eqn:Ha; [|exact IH].
  destruct a; discriminate Ha.
Qed.

Lemma app_snoc a c b : a ++ String c b = (a ++ String c "") ++ b.
Proof. rewrite str_app_assoc. reflexivity. Qed.

Lemma rfind_absent c b : c ∉ chars b -> OsPath.rfind c b = None.
Proof.
  unfold chars. induction b as [|d b IH]; simpl; intros Hn; [reflexivity|].
  rewrite IH by (intros Hin; apply Hn, list_elem_of_further, Hin).
  destruct (Ascii.eqb d c) eqn:Hd; [|reflexivity].
  apply Ascii.eqb_eq in Hd as ->. exfalso. apply Hn, list_elem_of_here.
Qed.

Lemma rfind_last c a b :
  c ∉ chars b -> OsPath.rfind c (a ++ String c b) = Some (String.length a).
Proof.
  intros Hn. induction a as [|d a IH].
  - rewrite str_app_nil_l. simpl. rewrite (rfind_absent c b Hn), Ascii.eqb_refl.
    reflexivity.
  - rewrite str_app_cons. simpl. rewrite IH. reflexivity.
Qed.

Lemma last_char_split s c :
  last_char s = Some c -> exists a, s = a ++ String c "".
Proof.
  induction s as [|d s IH]; [discriminate|].
  destruct s as [|d' s'].
  - intros [= ->]. exists "". reflexivity.
  - intros H. destruct (IH H) as [a ->]. exists (String d a). reflexivity.
Qed.

Lemma get_some_lt s k c :
  String.get k s = Some c -> (k < String.length s)%nat.
Proof.
  revert k. induction s as [|d s IH]; intros k; simpl; [discriminate|].
  destruct k as [|k]; [lia|]. intros H. apply IH in H. lia.
Qed.

Lemma has_non_dot_at p i n k c :
  (i <= k < i + n)%nat -> String.get k p = Some c -> c <> OsPath.extsep ->
  OsPath.has_non_dot p i n = true.
Proof.
  revert i. induction n as [|n IH]; intros i Hk Hg Hc; [lia|].
  simpl. destruct (String.get i p) as [d|] eqn:Hi; [|reflexivity].
  destruct (Ascii.eqb d OsPath.extsep) eqn:Hd; [|reflexivity].
  apply Ascii.eqb_eq in Hd as ->. apply IH; [|exact Hg | exact Hc].
  destruct (Nat.eq_dec k i) as [->|Hne]; [congruence | lia].
Qed.

(** The index after the last slash of a path whose last component is
    known. *)
Lemma after_last_sep dir rest :
  dir = "" \/ last_char dir = Some OsPath.sep ->
  OsPath.sep ∉ chars rest ->
  match OsPath.rfind OsPath.sep (dir ++ rest) with
  | Some i => S i
  | None => 0%nat
  end = String.length dir.
Proof.
  intros [->|Hl] Hn.
  - rewrite str_app_nil_l, (rfind_absent _ _ Hn). reflexivity.
  - apply last_char_split in Hl as [a ->].
    rewrite <- app_snoc, (rfind_last _ a rest Hn), str_length_app.
    simpl. lia.
Qed.

Lemma splitext_of_parts dir base e c :
  dir = "" \/ last_char dir = Some "/"%char ->
  "/"%char ∉ chars base -> c ∈ chars base -> c <> "."%char ->
  "."%char ∉ chars e -> "/"%char ∉ chars e ->
  OsPath.splitext (dir ++ base ++ String "." e) = (dir ++ base, String "." e).
Proof.
  intros Hdir Hbase Hc Hcd Hed Hes. unfold OsPath.splitext.
  rewrite after_last_sep; [|exact Hdir|].
  2:{ rewrite chars_app. intros Hin. apply elem_of_app in Hin as [Hin|Hin];
        [exact (Hbase Hin)|].
      unfold chars in Hin. simpl in Hin.
      apply elem_of_cons in Hin as [Hin|Hin]; [discriminate Hin|].
      exact (Hes Hin). }
  rewrite <- str_app_assoc.
  change (String "." e) with (String OsPath.extsep e).
  rewrite (rfind_last OsPath.extsep (dir ++ base) e Hed).
  rewrite str_length_app.
  replace (String.length dir + String.length base - String.length dir)%nat
    with (String.length base) by lia.
  replace (String.length dir <=? String.length dir + String.length base)%nat
    with true by (symmetry; apply Nat.leb_le; lia).
  apply elem_get in Hc as [k Hk].
  pose proof (get_some_lt _ _ _ Hk) as Hlt.
  rewrite (has_non_dot_at _ (String.length dir) (String.length base)
             (String.length dir + k) c); [| lia | | exact Hcd].
  2:{ rewrite str_app_assoc, get_app_r, get_app_l by exact Hlt. exact Hk. }
  cbn [andb]. rewrite <- str_length_app.
  rewrite substring_app_take, substring_app_drop. reflexivity.
Qed.

(** X4. [os.path.splitext] cuts a name in two without losing anything.
    The extension is empty, or it is a dot followed by characters among
    which there is no dot and no slash, and then the last path component
    of the part before it (what follows its last slash) holds a
    character that is not a dot: a name whose last component is made of
    dots and an extension only, such as [.kml] or [dir/.kml], has no
    extension.  Conversely, a name that can be cut in this way is cut in
    this way, so the extension is empty only when it has to be. *)
Theorem X4_splitext_parts :
  forall p,
    fst (OsPath.splitext p) ++ snd (OsPath.splitext p) = p
    /\ (snd (OsPath.splitext p) = ""
        \/ (exists e,
               snd (OsPath.splitext p) = String "." e
               /\ ("."%char ∉ chars e) /\ ("/"%char ∉ chars e))
           /\ (exists dir base c,
                  fst (OsPath.splitext p) = dir ++ base
                  /\ (dir = "" \/ last_char dir = Some "/"%char)
                  /\ ("/"%char ∉ chars base)
                  /\ c ∈ chars base /\ c <> "."%char))
    /\ (forall dir base e c,
          p = dir ++ base ++ String "." e ->
          dir = "" \/ last_char dir = Some "/"%char ->
          "/"%char ∉ chars base -> c ∈ chars base -> c <> "."%char ->
          "."%char ∉ chars e -> "/"%char ∉ chars e ->
          OsPath.splitext p = (dir ++ base, String "." e)).
Proof.
  intros p.
  cut (fst (OsPath.splitext p) ++ snd (OsPath.splitext p) = p
       /\ (snd (OsPath.splitext p) = ""
           \/ (exists e,
                  snd (OsPath.splitext p) = String "." e
                  /\ ("."%char ∉ chars e) /\ ("/"%char ∉ chars e))
              /\ (exists dir base c,
                     fst (OsPath.splitext p) = dir ++ base
                     /\ (dir = "" \/ last_char dir = Some "/"%char)
                     /\ ("/"%char ∉ chars base)
                     /\ c ∈ chars base /\ c <> "."%char))).
  { intros [H1 H2]. split; [exact H1|]. split; [exact H2|].
    intros dir base e c -> Hdir Hbase Hc Hcd Hed Hes.
    eapply splitext_of_parts; eassumption. }
  unfold OsPath.splitext.
  destruct (OsPath.rfind OsPath.extsep p) as [dotIndex|] eqn:Hdot;
    [|split; [apply str_app_nil_r | left; reflexivity]].
  set (filenameIndex := match OsPath.rfind OsPath.sep p with
                        | Some i => S i | None => 0%nat end).
  destruct ((filenameIndex <=? dotIndex)%nat
            && OsPath.has_non_dot p filenameIndex (dotIndex - filenameIndex))
    eqn:Hc; [|split; [apply str_app_nil_r | left; reflexivity]].
  apply andb_prop in Hc as [Hle Hnd]. apply Nat.leb_le in Hle.
  apply rfind_split in Hdot as (pre & post & Hp & Hl & Hnodot).
  cbn [fst snd]. rewrite <- Hl.
  assert (Hroot : String.substring 0 (String.length pre) p = pre).
  { rewrite Hp. apply substring_app_take. }
  assert (Hext : String.substring (String.length pre)
                   (String.length p - String.length pre) p
                 = String OsPath.extsep post).
  { rewrite Hp. apply substring_app_drop. }
  rewrite Hroot, Hext. split; [symmetry; exact Hp|]. right. split.
  - exists post. split; [reflexivity|]. split; [exact Hnodot|].
    intros Hin. apply elem_get in Hin as [k Hk].
    assert (Hg : String.get (String.length pre + S k) p = Some OsPath.sep).
    { rewrite Hp, get_app_r. exact Hk. }
    apply rfind_ge_get in Hg as (j & Hj & Hkj).
    unfold filenameIndex in Hle. rewrite Hj in Hle. lia.
  - apply has_non_dot_found in Hnd as (k & Hk & Hne).
    assert (Hklt : (k < String.length pre)%nat) by lia.
    destruct (get_lt pre k Hklt) as [c Hc].
    assert (Hg : String.get k p = Some c).
    { rewrite Hp, get_app_l by exact Hklt. exact Hc. }
    pose proof (Hne c Hg) as Hcdot.
    unfold filenameIndex in Hk, Hle.
    destruct (OsPath.rfind OsPath.sep p) as [i|] eqn:Hsep.
    + apply rfind_split in Hsep as (a & b & Hpa & Hla & Hnosep).
      rewrite app_snoc in Hpa.
      assert (Hld : String.length (a ++ String OsPath.sep "") = S i).
      { rewrite str_length_app. simpl. lia. }
      destruct (app_eq_len pre (String OsPath.extsep post)
                  (a ++ String OsPath.sep "") b) as (m & Hpre & Hb).
      { rewrite <- Hp. exact Hpa. }
      { lia. }
      exists (a ++ String OsPath.sep ""), m, c.
      split; [exact Hpre|].
      split; [right; apply last_char_snoc|].
      split.
      * intros Hin. apply Hnosep. rewrite Hb, chars_app.
        apply elem_of_app. left. exact Hin.
      * split; [|exact Hcdot].
        assert (Hkm : String.get (k - S i) m = Some c).
        { rewrite <- Hc, Hpre.
          replace k with (String.length (a ++ String OsPath.sep "")
                          + (k - S i))%nat at 2 by lia.
          symmetry. apply get_app_r. }
        eapply get_elem. exact Hkm.
    + exists "", pre, c. split; [reflexivity|]. split; [left; reflexivity|].
      split.
      * apply rfind_none in Hsep. intros Hin. apply Hsep.
        rewrite Hp, chars_app. apply elem_of_app. left. exact Hin.
      * split; [eapply get_elem; exact Hc | exact Hcdot].
Qed.

(** ** The grouping key, again *)

Lemma matches_no_space pat u : matches pat u = true -> " "%char ∉ chars u.
Proof.
  unfold chars. revert u. induction pat as [|a pat IH]; intros [|c u]; simpl;
    try discriminate.
  - intros _. apply not_elem_of_nil.
  - intros H. apply andb_prop in H as [Hc Hu]. intros Hin.
    apply elem_of_cons in Hin as [<-|Hin]; [|exact (IH _ Hu Hin)].
    destruct a; discriminate Hc.
Qed.

Lemma replace_removes a b s : a <> b -> a ∉ chars (Py.replace a b s).
Proof.
  unfold chars. intros Hab. induction s as [|c s IH]; simpl.
  - apply not_elem_of_nil.
  - intros Hin. apply elem_of_cons in Hin as [Hin|Hin]; [|exact (IH Hin)].
    destruct (Ascii.eqb c a) eqn:Hc; [congruence|].
    apply Ascii.eqb_neq in Hc. congruence.
Qed.

(** X5. The grouping key never contains a space: it is either the city
    with its spaces replaced, or a substring of the file name that has
    the UUID shape and is 36 characters long. *)
Theorem X5_key_has_no_space :
  forall filename city,
    (" "%char ∉ chars (working_street_id filename city))
    /\ (working_street_id filename city = Py.replace " " "_" city
        \/ (is_uuid (working_street_id filename city)
            /\ String.length (working_street_id filename city) = 36%nat
            /\ exists i, occurs_at i (working_street_id filename city)
                           filename)).
Proof.
  intros filename city. unfold working_street_id.
  destruct (re_search uuid_pattern filename) as [m|] eqn:Hs.
  - apply re_search_some in Hs as (i & Hoc & Hm & _). split.
    + apply (matches_no_space _ _ Hm).
    + right. split; [apply matches_uuid; exact Hm|].
      split; [apply (matches_length _ _ Hm) | eauto].
  - split; [apply replace_removes; discriminate | left; reflexivity].
Qed.

(** ** Decoding an upload *)

Lemma split_no_sep sep s : sep ∉ chars s -> Py.split sep s = [s].
Proof.
  unfold chars. induction s as [|c s IH]; simpl; [reflexivity|].
  intros Hn. destruct (Ascii.eqb c sep) eqn:Hc.
  - apply Ascii.eqb_eq in Hc as ->. exfalso. apply Hn, list_elem_of_here.
  - rewrite IH; [reflexivity|]. intros Hin. apply Hn.
    apply list_elem_of_further. exact Hin.
Qed.

Lemma split_app_sep sep h rest :
  sep ∉ chars h ->
  Py.split sep (h ++ String sep rest) = h :: Py.split sep rest.
Proof.
  unfold chars. induction h as [|c h IH]; intros Hn.
  - rewrite str_app_nil_l. simpl. rewrite Ascii.eqb_refl. reflexivity.
  - rewrite str_app_cons. simpl in *. destruct (Ascii.eqb c sep) eqn:Hc.
    + apply Ascii.eqb_eq in Hc as ->. exfalso. apply Hn, list_elem_of_here.
    + rewrite IH; [reflexivity|]. intros Hin. apply Hn.
      apply list_elem_of_further. exact Hin.
Qed.

Section Decoding.

Context {F : Type} {RT : Runtime F} {P : Processor}.

Lemma decode_failure_aborts city (st : run_state F) content filename rest
    (fs : FS) e :
  decode_upload content = Raise e ->
  process_uploads city st ((content, filename) :: rest) fs = (fs, Raise e).
Proof.
  intros Hd. simpl. apply bind_raise_l. unfold process_file. simpl fst.
  apply bind_raise_l. unfold lift. rewrite Hd. reflexivity.
Qed.

(** X6. What is decoded is the text between the first and the second
    comma of the upload (or the end, when there is one comma only).  An
    upload without a comma raises IndexError, and whatever the decoding
    raises ends the loop at that file: the file system is as it was
    before the file, which is not written, and the files after it are
    not looked at. *)
Theorem X6_upload_decoding :
  forall content,
    (forall header payload,
        "," %char ∉ chars header -> "," %char ∉ chars payload ->
        (content = header ++ "," ++ payload ->
         decode_upload content = b64decode payload)
        /\ (forall tail,
               content = header ++ "," ++ payload ++ "," ++ tail ->
               decode_upload content = b64decode payload))
    /\ ("," %char ∉ chars content -> decode_upload content = Raise IndexError)
    /\ (forall e city (st : run_state F) filename rest (fs : FS),
           decode_upload content = Raise e ->
           process_uploads city st ((content, filename) :: rest) fs
           = (fs, Raise e)).
Proof.
  intros content. split; [|split].
  - intros header payload Hh Hp. split.
    + intros ->. unfold decode_upload.
      change (header ++ "," ++ payload) with (header ++ String "," payload).
      rewrite (split_app_sep _ _ _ Hh), (split_no_sep _ _ Hp). reflexivity.
    + intros tail ->. unfold decode_upload.
      change (header ++ "," ++ payload ++ "," ++ tail)
        with (header ++ String "," (payload ++ String "," tail)).
      rewrite (split_app_sep _ _ _ Hh), (split_app_sep _ _ _ Hp).
      reflexivity.
  - intros Hn. unfold decode_upload. rewrite (split_no_sep _ _ Hn).
    reflexivity.
  - intros e city st filename rest fs Hd. apply decode_failure_aborts.
    exact Hd.
Qed.

End Decoding.

(** ** Rejections *)

Lemma city_missing_resolve selected_city custom_city :
  city_missing selected_city custom_city = true <->
  resolve_city selected_city custom_city = None
  \/ resolve_city selected_city custom_city = Some "".
Proof.
  unfold city_missing, resolve_city.
  assert (Hsel : negb (truthy_str selected_city) = true <->
                 selected_city = None \/ selected_city = Some "").
  { destruct selected_city as [[|c s]|]; simpl; split; auto;
      try discriminate; intros [H|H]; discriminate. }
  destruct custom_city as [c|]; [|exact Hsel].
  destruct (Py.nonempty c) eqn:Hn; [|exact Hsel]. split.
  - intros H. right. rewrite strip_all_space; auto.
  - intros [H|H]; [discriminate|]. injection H as H.
    apply strip_empty. exact H.
Qed.

Section Rejections.

Context {F : Type} {RT : Runtime F} {P : Processor}.

(** X7. The callback answers with a rejection in exactly two cases, and
    in both the file system is untouched: no upload (the EmptyUpload
    alert), or at least one upload and no city (the NoInputSelected
    alert).  A run that got past both checks never returns a rejection,
    whatever the processor functions do. *)
Theorem X7_rejection_exactly :
  forall n contents filenames selected_city custom_city (fs fs' : FS) a,
    process_files n contents filenames selected_city custom_city fs
    = (fs', Ok (Rejected a))
    <-> fs' = fs
        /\ ((truthy_list contents = false /\ a = EmptyUpload)
            \/ (truthy_list contents = true
                /\ city_missing selected_city custom_city = true
                /\ a = NoInputSelected)).
Proof.
  intros n contents filenames sel cust fs fs' a. split.
  - unfold process_files. destruct (truthy_list contents) eqn:Hc; simpl.
    + destruct (resolve_city sel cust) as [[|c0 city]|] eqn:Hr.
      * unfold ret. intros [= <- <-]. split; [reflexivity|]. right.
        repeat split. apply city_missing_resolve. auto.
      * intros H.
        apply bind_ok in H as (u1 & fs1 & _ & H).
        apply bind_ok in H as (u2 & fs2 & _ & H).
        apply bind_ok in H as (st & fs3 & _ & H).
        apply bind_ok in H as (u3 & fs4 & _ & H).
        apply bind_ok in H as (fs5 & fs6 & _ & H).
        apply bind_ok in H as (zipped & fs7 & _ & H).
        apply bind_ok in H as (mf & fs8 & _ & H).
        unfold ret in H. discriminate H.
      * unfold ret. intros [= <- <-]. split; [reflexivity|]. right.
        repeat split. apply city_missing_resolve. auto.
    + unfold ret. intros [= <- <-]. split; [reflexivity|]. left. auto.
  - intros [-> [[Hc ->] | (Hc & Hm & ->)]].
    + unfold process_files. rewrite Hc. reflexivity.
    + apply no_city_rejected; [exact Hc|].
      apply city_missing_resolve. exact Hm.
Qed.

End Rejections.

(** ** The table and the map *)

Lemma try_fold_invariant {S A} (I : S -> Prop)
    (body : S -> A -> S * option exn) l s :
  (forall s a, I s -> I (fst (body s a))) ->
  I s -> I (fst (try_fold body l s)).
Proof.
  intros Hb. revert s. induction l as [|a l IH]; intros s Hs; simpl; [exact Hs|].
  pose proof (Hb s a Hs) as Hstep.
  destruct (body s a) as [s' [e|]]; simpl in *; [exact Hstep | apply IH; exact Hstep].
Qed.

Lemma entry_ok_mono {F} (table more : list (row F)) p :
  entry_ok table p -> entry_ok (table ++ more) p.
Proof.
  intros (pt & ring & Hp & Hin). exists pt, ring. split; [exact Hp|].
  eapply Forall_impl; [exact Hin|]. intros q Hq. simpl in Hq.
  apply elem_of_app. left. exact Hq.
Qed.

Section TableAndMap.

Context {F : Type} {RT : Runtime F} {P : Processor}.

Lemma reading_extend filename all0 polys0 a ps rows' :
  reading filename all0 polys0 (a, ps) ->
  Forall (fun r : row F => file r = filename) rows' ->
  reading filename all0 polys0 ((a ++ rows')%list, ps).
Proof.
  intros (rows & new & Ha & Hr & Hp & Hn) Hr'. simpl in *. subst a ps.
  exists (rows ++ rows')%list, new. simpl.
  split; [rewrite <- ?app_assoc; reflexivity|].
  split; [apply Forall_app; auto|].
  split; [reflexivity|].
  eapply Forall_impl; [exact Hn|]. intros p [Hname Hok].
  split; [exact Hname | apply entry_ok_mono; exact Hok].
Qed.

(** The inner loop over groups, from [(a, [])]. *)
Lemma coord_loop_rows filename groups (a : list (row F)) :
  exists rows,
    fst (fst (try_fold (coord_step filename) groups (a, [])))
    = (a ++ rows)%list
    /\ Forall (fun r => file r = filename) rows
    /\ Forall (fun q => row_of filename q
                        ∈ fst (fst (try_fold (coord_step filename) groups
                                      (a, []))))
         (snd (fst (try_fold (coord_step filename) groups (a, [])))).
Proof.
  set (I := fun s : list (row F) * list (F * F) =>
              exists rows, fst s = (a ++ rows)%list
                           /\ Forall (fun r => file r = filename) rows
                           /\ Forall (fun q => row_of filename q ∈ fst s)
                                (snd s)).
  change (I (fst (try_fold (coord_step filename) groups (a, [])))).
  apply try_fold_invariant.
  - intros [b pc] g (rows & Hb & Hr & Hin). simpl in Hb, Hin. subst b.
    unfold I, coord_step.
    destruct (Py.split "," g) as [|p0 [|p1 l]];
      try solve [exists rows; simpl; auto].
    destruct (py_float p0) as [lon_v|]; [|solve [exists rows; simpl; auto]].
    destruct (py_float p1) as [lat_v|]; [|solve [exists rows; simpl; auto]].
    cbn [fst snd].
    exists (rows ++ [{| lat := lat_v; lon := lon_v; file := filename |}])%list.
    split; [rewrite <- ?app_assoc; reflexivity|].
    split; [apply Forall_app; split; [exact Hr | repeat constructor]|].
    apply Forall_app. split.
    + eapply Forall_impl; [exact Hin|]. intros q Hq. simpl in Hq.
      apply elem_of_app. left. exact Hq.
    + constructor; [|constructor]. apply elem_of_app. right.
      apply list_elem_of_here.
  - unfold I. exists []. simpl. rewrite app_nil_r. repeat split; constructor.
Qed.

Lemma coords_element_step_reading filename all0 polys0 s ce :
  reading filename all0 polys0 s ->
  reading filename all0 polys0 (fst (coords_element_step filename s ce)).
Proof.
  intros Hs. destruct s as [a ps]. unfold coords_element_step.
  destruct (text_of ce) as [text|]; [|exact Hs]. cbn [fst snd].
  destruct (coord_loop_rows filename (Py.split_ws (Py.strip text)) a)
    as (rows & Ha & Hr & Hin).
  destruct (try_fold (coord_step filename) (Py.split_ws (Py.strip text))
              (a, [])) as [[a' pc] [e|]]; cbn [fst snd] in *; subst a'.
  - apply reading_extend; assumption.
  - pose proof (reading_extend _ _ _ _ _ rows Hs Hr) as Hext.
    destruct pc as [|pt ring]; [exact Hext|].
    destruct Hext as (rows0 & new & Ha0 & Hr0 & Hp0 & Hn0). simpl in *.
    exists rows0, (new ++ [{| name := filename;
                              polygon := [pt :: ring] |}])%list.
    simpl. split; [exact Ha0|]. split; [exact Hr0|].
    split; [rewrite Hp0, <- ?app_assoc; reflexivity|].
    apply Forall_app. split; [exact Hn0|].
    constructor; [|constructor]. split; [reflexivity|].
    exists pt, ring. split; [reflexivity | exact Hin].
Qed.

Lemma read_coordinates_reading filename cleaned_kml (fs : FS) all0 polys0 :
  reading filename all0 polys0
    (read_coordinates filename cleaned_kml fs (all0, polys0)).
Proof.
  assert (H0 : reading filename all0 polys0 (all0, polys0)).
  { exists [], []. simpl. rewrite !app_nil_r. repeat split; constructor. }
  unfold read_coordinates.
  destruct (fs !! cleaned_kml) as [data|]; [|exact H0].
  destruct (ET_fromstring data) as [root|]; [|exact H0].
  apply try_fold_invariant; [|exact H0].
  intros s pm Hs. unfold placemark_step.
  apply try_fold_invariant; [|exact Hs].
  intros s' ce Hs'. apply coords_element_step_reading. exact Hs'.
Qed.

(** What one loop iteration does to the table and the polygons. *)
Lemma process_file_table city (st st' : run_state F) content filename
    (fs fs' : FS) :
  process_file city st (content, filename) fs = (fs', Ok st') ->
  (dispatched filename = false /\ st' = st)
  \/ (dispatched filename = true
      /\ reading filename (all_coords st) (polygons st)
           (all_coords st', polygons st')).
Proof.
  intros H. apply process_file_ok in H as [H | [Hd (kml_path & fs0 & H)]];
    [left; exact H|].
  right. split; [exact Hd|].
  apply process_markup_ok in H
    as (cleaned & fs1 & c' & w & _ & _ & _ & _ & Hread).
  rewrite Hread. apply read_coordinates_reading.
Qed.

Lemma process_uploads_table city uploads (st st' : run_state F)
    (fs fs' : FS) :
  process_uploads city st uploads fs = (fs', Ok st') ->
  Forall (entry_ok (all_coords st)) (polygons st) ->
  (exists groups : list (string * list (row F)),
      List.map fst groups = List.filter dispatched (List.map snd uploads)
      /\ all_coords st'
         = (all_coords st ++ List.concat (List.map snd groups))%list
      /\ Forall (fun g => Forall (fun r => file r = fst g) (snd g)) groups)
  /\ Forall (entry_ok (all_coords st')) (polygons st')
  /\ (exists new,
         polygons st' = (polygons st ++ new)%list
         /\ Forall (fun p => name p
                             ∈ List.filter dispatched (List.map snd uploads))
              new).
Proof.
  revert st fs. induction uploads as [|[content filename] uploads IH];
    intros st fs H Hok.
  - simpl in H. unfold ret in H. injection H as _ <-. split; [|split].
    + exists []. simpl. rewrite app_nil_r. repeat split; constructor.
    + exact Hok.
    + exists []. rewrite app_nil_r. split; [reflexivity | constructor].
  - simpl in H. apply bind_ok in H as (st1 & fs1 & Hf & H).
    apply process_file_table in Hf as [[Hd ->] | [Hd Hread]].
    + destruct (IH _ _ H Hok) as ((groups & Hn & Ha & Hg) & Hok' & new & Hp & Hnew).
      cbn [List.map List.filter snd]. rewrite Hd. split; [|split].
      * exists groups. auto.
      * exact Hok'.
      * exists new. auto.
    + destruct Hread as (rows & new1 & Ha1 & Hr1 & Hp1 & Hn1).
      simpl in Ha1, Hp1, Hn1.
      assert (Hok1 : Forall (entry_ok (all_coords st1)) (polygons st1)).
      { rewrite Hp1. apply Forall_app. split.
        - rewrite Ha1. eapply Forall_impl; [exact Hok|].
          intros p Hp. apply entry_ok_mono. exact Hp.
        - eapply Forall_impl; [exact Hn1|]. intros p [_ Hp]. exact Hp. }
      destruct (IH _ _ H Hok1)
        as ((groups & Hn & Ha & Hg) & Hok' & new & Hp & Hnew).
      cbn [List.map List.filter snd]. rewrite Hd. split; [|split].
      * exists ((filename, rows) :: groups). cbn [List.map fst snd List.concat].
        split; [rewrite Hn; reflexivity|].
        split; [rewrite Ha, Ha1, <- ?app_assoc; reflexivity|].
        constructor; [exact Hr1 | exact Hg].
      * exact Hok'.
      * exists (new1 ++ new)%list. split.
        -- rewrite Hp, Hp1, <- ?app_assoc. reflexivity.
        -- apply Forall_app. split.
           ++ eapply Forall_impl; [exact Hn1|]. intros p [Hname _].
              rewrite Hname. apply list_elem_of_here.
           ++ eapply Forall_impl; [exact Hnew|]. intros p Hp'.
              apply list_elem_of_further. exact Hp'.
Qed.

(** X8. The table of a completed run is made of one block of rows per
    file that took a markup branch, in upload order, and every row of a
    block carries the name of its file: rows of different files are
    never interleaved, and a file that was skipped has no row. *)
Theorem X8_table_grouped_by_file :
  forall n contents filenames selected_city custom_city (fs fs' : FS)
         a sql table map_fig download,
    process_files n contents filenames selected_city custom_city fs
    = (fs', Ok (Completed a sql table map_fig download)) ->
    exists groups : list (string * list (row F)),
      List.map fst groups
      = List.filter dispatched
          (List.map snd (combine (default [] contents) filenames))
      /\ table = List.concat (List.map snd groups)
      /\ Forall (fun g => Forall (fun r => file r = fst g) (snd g)) groups.
Proof.
  intros n contents filenames sel cust fs fs' a sql table map_fig download H.
  apply process_files_completed in H
    as (city & fs1 & fs2 & fs3 & st & _ & _ & _ & _ & _ & Hp & _ & _ & _
        & _ & _ & _ & ->).
  apply process_uploads_table in Hp as ((groups & Hn & Ha & Hg) & _);
    [|constructor].
  exists groups. auto.
Qed.

End TableAndMap.

Lemma lookup_map_pair {A B} (ring : list (A * B)) i a b :
  List.map fst ring !! i = Some a ->
  List.map snd ring !! i = Some b ->
  ring !! i = Some (a, b).
Proof.
  revert i. induction ring as [|[x y] ring IH]; intros i; simpl;
    [destruct i; discriminate|].
  destruct i as [|i]; simpl.
  - intros [= ->] [= ->]. reflexivity.
  - apply IH.
Qed.

Lemma zip_write_ok names (fs : FS) :
  Forall (fun f => is_Some (fs !! OsPath.join KML_DIR f)) names ->
  exists ms, zip_write names fs = (fs, Ok ms).
Proof.
  induction names as [|f names IH]; intros H; simpl.
  - exists []. reflexivity.
  - inversion H as [|? ? [data Hd] Hrest]; subst.
    destruct (IH Hrest) as [ms Hms].
    destruct (Py.endswith f ".kml"); [|exists ms; exact Hms].
    exists ((f, data) :: ms). unfold bind, read_file. rewrite Hd, Hms.
    reflexivity.
Qed.

Lemma zip_write_listdir_ok (fs : FS) :
  exists ms, zip_write (listdir KML_DIR fs) fs = (fs, Ok ms).
Proof.
  apply zip_write_ok. apply Forall_forall. intros f Hf.
  apply elem_of_listdir in Hf as [Hplain Hsome].
  rewrite (join_plain _ Hplain). exact Hsome.
Qed.

Section MapAndCompletion.

Context {F : Type} {RT : Runtime F} {P : Processor}.

Lemma polygon_traces_ok (table : list (row F)) polys :
  Forall (entry_ok table) polys ->
  exists ts,
    polygon_traces polys = Ok ts
    /\ Forall2 (fun t p => exists pt ring,
                    polygon p = [pt :: ring]
                    /\ t = trace_of (name p) (pt :: ring)) ts polys.
Proof.
  induction 1 as [|p polys (pt & ring & Hp & Hin) Hok (ts & Hts & Hall)].
  - exists []. split; [reflexivity | constructor].
  - exists (trace_of (name p) (pt :: ring) :: ts). split.
    + cbn [polygon_traces]. rewrite Hp. cbn [ring_traces ring_trace].
      rewrite Hts. reflexivity.
    + constructor; [|exact Hall]. exists pt, ring. auto.
Qed.

Lemma build_map_ok (table : list (row F)) polys :
  Forall (entry_ok table) polys ->
  (polys = [] /\ build_map polys = Ok None)
  \/ (exists p rest pt ring ts,
         polys = p :: rest
         /\ polygon p = [pt :: ring]
         /\ polygon_traces polys = Ok ts
         /\ build_map polys
            = Ok (Some {| traces := ts; center_lat := snd pt;
                          center_lon := fst pt |})).
Proof.
  intros Hok. destruct polys as [|p rest]; [left; auto|]. right.
  destruct (polygon_traces_ok _ _ Hok) as (ts & Hts & _).
  inversion Hok as [|? ? (pt & ring & Hp & _) _]; subst.
  exists p, rest, pt, ring, ts. repeat split; auto.
  unfold build_map. rewrite Hts, Hp. destruct pt. reflexivity.
Qed.

(** X9. Every trace of the map of a completed run is drawn for a file
    that took a markup branch, has at least one point and as many
    longitudes as latitudes, and each of its points is a row of the
    table under the trace's name; the map is centred on the first point
    of the first trace; with an empty table there is no map. *)
Theorem X9_map_points_are_table_rows :
  forall n contents filenames selected_city custom_city (fs fs' : FS)
         a sql table map_fig download,
    process_files n contents filenames selected_city custom_city fs
    = (fs', Ok (Completed a sql table map_fig download)) ->
    (forall fig,
        map_fig = Some fig ->
        Forall (fun t =>
                  lons t <> []
                  /\ length (lons t) = length (lats t)
                  /\ trace_name t
                     ∈ List.filter dispatched
                         (List.map snd
                            (combine (default [] contents) filenames))
                  /\ forall i lo la,
                      lons t !! i = Some lo -> lats t !! i = Some la ->
                      {| lat := la; lon := lo; file := trace_name t |}
                      ∈ table)
          (traces fig)
        /\ exists t rest,
            traces fig = t :: rest
            /\ lons t !! 0%nat = Some (center_lon fig)
            /\ lats t !! 0%nat = Some (center_lat fig))
    /\ (table = [] -> map_fig = None).
Proof.
  intros n contents filenames sel cust fs fs' a sql table map_fig download H.
  apply process_files_completed in H
    as (city & fs1 & fs2 & fs3 & st & _ & _ & _ & _ & _ & Hp & _ & _ & _
        & Hb & _ & _ & ->).
  apply process_uploads_table in Hp as (_ & Hok & new & Hnew & Hnames);
    [|constructor].
  simpl in Hnew. subst new.
  destruct (build_map_ok _ _ Hok)
    as [[Hnil Hmap] | (p & rest & pt & ring & ts & Hpolys & Hpoly & Hts & Hmap)].
  - rewrite Hmap in Hb. injection Hb as <-. split; [discriminate | reflexivity].
  - rewrite Hmap in Hb. injection Hb as <-. split.
    + intros fig [= <-]. cbn [traces center_lon center_lat].
      destruct (polygon_traces_ok _ _ Hok) as (ts' & Hts' & Hall).
      rewrite Hts in Hts'. injection Hts' as <-. split.
      * clear Hmap Hts Hpolys Hpoly.
        induction Hall as [|t q ts qs (pt' & ring' & Hq & ->) Hall IH];
          [constructor|].
        inversion Hok as [|? ? (pt2 & ring2 & Hq2 & Hin) Hok']; subst.
        inversion Hnames as [|? ? Hname Hnames']; subst.
        constructor; [|apply IH; assumption].
        cbn [trace_of lons lats trace_name].
        split; [discriminate|]. split; [rewrite !length_map; reflexivity|].
        split; [exact Hname|]. intros i lo la Hlo Hla.
        pose proof (lookup_map_pair _ _ _ _ Hlo Hla) as Hpt.
        rewrite Hq in Hq2. injection Hq2 as <- <-.
        rewrite Forall_forall in Hin.
        apply (Hin (lo, la)). apply list_elem_of_lookup. eauto.
      * rewrite Hpolys in Hall.
        inversion Hall as [|t q ts0 qs (pt' & ring' & Hq & ->) Hall']; subst.
        rewrite Hpoly in Hq. injection Hq as <- <-.
        exists (trace_of (name p) (pt :: ring)), ts0.
        split; [reflexivity|]. split; reflexivity.
    + intros Hempty. exfalso. rewrite Hpolys in Hok.
      inversion Hok as [|? ? (pt2 & ring2 & _ & Hin) _]; subst.
      inversion Hin as [|? ? Hin0 _]; subst.
      rewrite Hempty in Hin0. apply elem_of_nil in Hin0. exact Hin0.
Qed.

(** X10. After the loop only the merge step can make the callback fail:
    when the two directories have been cleared, the loop has returned
    and [merge_kml_files] returns, the callback returns the success
    alert with a complete response.  Writing the archive and building
    the map (lines 164-202) never raise, and the file system is left as
    the merge step left it. *)
Theorem X10_nothing_fails_after_merge :
  forall n contents filenames selected_city custom_city city
         (fs fs1 fs2 fs3 fs4 : FS) (st : run_state F),
    truthy_list contents = true ->
    resolve_city selected_city custom_city = Some city ->
    Py.nonempty city = true ->
    delete_files_in_folder KMZ_DIR fs = (fs1, Ok tt) ->
    delete_files_in_folder KML_DIR fs1 = (fs2, Ok tt) ->
    process_uploads city initial_state
      (combine (default [] contents) filenames) fs2 = (fs3, Ok st) ->
    merge_kml_files KML_DIR (OsPath.join KML_DIR "merged_output.kml")
      (count st) fs3 = (fs4, Ok tt) ->
    exists map_fig zipped,
      process_files n contents filenames selected_city custom_city fs
      = (fs4,
         Ok (Completed ProcessingComplete
               (String.concat "" (sql_output_all st)) (all_coords st)
               map_fig
               {| members := zipped;
                  download_name := city ++ "_kml_output.zip" |})).
Proof.
  intros n contents filenames sel cust city fs fs1 fs2 fs3 fs4 st
    Hc Hr Hn Hd1 Hd2 Hp Hm.
  destruct (zip_write_listdir_ok fs4) as [zipped Hz].
  assert (Hok : Forall (entry_ok (all_coords st)) (polygons st)).
  { apply process_uploads_table in Hp as (_ & Hok & _); [exact Hok|].
    constructor. }
  assert (Hmap : exists map_fig, build_map (polygons st) = Ok map_fig).
  { destruct (build_map_ok _ _ Hok)
      as [[_ H] | (p & rest & pt & ring & ts & _ & _ & _ & H)]; eauto. }
  destruct Hmap as [map_fig Hmap]. exists map_fig, zipped.
  unfold process_files. rewrite Hc, Hr.
  destruct city as [|c0 city]; [discriminate|]. cbn [negb].
  rewrite (bind_step _ _ _ _ _ Hd1), (bind_step _ _ _ _ _ Hd2).
  rewrite (bind_step _ _ _ _ _ Hp), (bind_step _ _ _ _ _ Hm).
  unfold bind at 1. unfold get_fs.
  rewrite (bind_step _ _ _ _ _ Hz).
  unfold bind, lift. rewrite Hmap. reflexivity.
Qed.

End MapAndCompletion.

(** ** Letter case and the archive *)

Lemma lower_length s : String.length (Py.lower s) = String.length s.
Proof. induction s; simpl; congruence. Qed.

Lemma splitext_app p :
  fst (OsPath.splitext p) ++ snd (OsPath.splitext p) = p.
Proof.
  unfold OsPath.splitext.
  destruct (OsPath.rfind OsPath.extsep p) as [dotIndex|] eqn:Hdot;
    [|apply str_app_nil_r].
  destruct (_ && _); [|apply str_app_nil_r].
  apply rfind_split in Hdot as (pre & post & Hp & Hl & _).
  cbn [fst snd]. subst p dotIndex.
  rewrite substring_app_take, substring_app_drop. reflexivity.
Qed.

Lemma endswith_same_length root ext suffix :
  String.length ext = String.length suffix ->
  Py.endswith (root ++ ext) suffix = true -> ext = suffix.
Proof.
  intros Hl H. unfold Py.endswith in H. apply andb_prop in H as [_ H].
  apply String.eqb_eq in H.
  pose proof (substring_app_drop root ext) as Hd.
  rewrite str_length_app in Hd, H. rewrite <- Hl in H.
  replace (String.length root + String.length ext - String.length root)%nat
    with (String.length ext) in Hd by lia.
  replace (String.length root + String.length ext - String.length ext)%nat
    with (String.length root) in H by lia.
  congruence.
Qed.

Section LetterCase.

Context {F : Type} {RT : Runtime F} {P : Processor}.

(** X11. The archive test is stricter than the dispatch: a file that is
    taken as markup because its extension is [.kml] in some other letter
    case (as [.KML]) is never a member of the archive under its own
    name, although it went through the whole pipeline. *)
Theorem X11_upper_case_markup_not_bundled :
  forall n contents filenames selected_city custom_city (fs fs' : FS)
         a sql table map_fig download filename,
    process_files n contents filenames selected_city custom_city fs
    = (fs', Ok (Completed a sql table map_fig download)) ->
    upload_ext filename = ".kml" ->
    snd (OsPath.splitext filename) <> ".kml" ->
    dispatched filename = true
    /\ forall data, (filename, data) ∉ members download.
Proof.
  intros n contents filenames sel cust fs fs' a sql table map_fig download
    filename H Hext Hne.
  split; [unfold dispatched; rewrite Hext; reflexivity|].
  intros data Hin.
  apply process_files_completed in H
    as (city & fs1 & fs2 & fs3 & st & _ & _ & _ & _ & _ & _ & _ & Hz & _).
  apply zip_write_members in Hz as [Hnames _].
  assert (Hf : filename ∈ List.map fst (members download)).
  { apply list_elem_of_In, in_map_iff. exists (filename, data).
    split; [reflexivity | apply list_elem_of_In; exact Hin]. }
  rewrite Hnames in Hf. apply list_elem_of_In, filter_In in Hf as [_ He].
  apply Hne. rewrite <- (splitext_app filename) in He.
  apply (endswith_same_length _ _ _) in He; [exact He|].
  unfold upload_ext in Hext.
  rewrite <- (lower_length (snd (OsPath.splitext filename))), Hext.
  reflexivity.
Qed.

End LetterCase.

(** ** The loop, piece by piece *)

Section LoopPieces.

Context {F : Type} {RT : Runtime F} {P : Processor}.

(** X13. A coordinate group whose longitude or latitude field is not a
    number ends the reading of its file at that group: the rows of the
    groups before it stay in the table, but the coordinates element gets
    no polygon, so the table can hold rows the map does not draw. *)
Theorem X13_bad_number_keeps_rows_drops_polygon :
  forall filename (all : list (row F)) polys coords_element text
         before bad after tuples f0 f1 e,
    text_of coords_element = Some text ->
    Py.split_ws (Py.strip text) = (before ++ bad :: after)%list ->
    parsed_as tuples before ->
    group_fields bad = Some (f0, f1) ->
    (py_float f0 = Raise e
     \/ (exists lon_v, py_float f0 = Ok lon_v) /\ py_float f1 = Raise e) ->
    coords_element_step filename (all, polys) coords_element
    = ((all ++ List.map (row_of filename) tuples, polys)%list, Some e).
Proof.
  intros filename all polys ce text before bad after tuples f0 f1 e
    Ht Hs Hp Hg Hbad.
  unfold coords_element_step. rewrite Ht, Hs. cbn [fst snd].
  assert (Hfold : forall (s : list (row F) * list (F * F)) l1 l2 s1 s2,
             try_fold (coord_step filename) l1 s = (s1, None) ->
             coord_step filename s1 bad = (s2, Some e) ->
             try_fold (coord_step filename) (l1 ++ bad :: l2) s
             = (s2, Some e)).
  { intros s l1. revert s. induction l1 as [|g l1 IH]; intros s l2 s1 s2 H1 H2.
    - simpl in H1. injection H1 as <-. simpl. rewrite H2. reflexivity.
    - simpl in *. destruct (coord_step filename s g) as [s' [e'|]];
        [discriminate|]. eapply IH; eauto. }
  rewrite (Hfold _ _ _ _ (all ++ List.map (row_of filename) tuples,
                          [] ++ tuples)%list
             (coord_loop_groups filename before tuples all [] Hp)).
  - reflexivity.
  - unfold coord_step, group_fields in *.
    destruct (Py.split "," bad) as [|g0 [|g1 l]]; try discriminate.
    injection Hg as -> ->.
    destruct Hbad as [-> | [[lon_v ->] ->]]; reflexivity.
Qed.

(** X14. A cleaned document that cannot be read back for the table
    (the path holds no file, or the parser rejects it) does not fail the
    file: its statement text and counter are recorded, and the table and
    the polygons are left as they were. *)
Theorem X14_unreadable_document_is_skipped_for_the_table :
  forall city (st : run_state F) filename kml_path cleaned_kml
         (fs fs1 fs' : FS) c' w,
    remove_cdata_from_kml kml_path fs = (fs1, Ok cleaned_kml) ->
    extract_coordinates_from_kml cleaned_kml (count st)
      (working_street_id filename city) fs1 = (fs', Ok (c', w)) ->
    (fs' !! cleaned_kml = None
     \/ exists data e,
         fs' !! cleaned_kml = Some data /\ ET_fromstring data = Raise e) ->
    process_markup city st filename kml_path fs
    = (fs',
       Ok {| count := c';
             all_coords := all_coords st;
             polygons := polygons st;
             sql_output_all :=
               (sql_output_all st ++ [String.concat "" w])%list |}).
Proof.
  intros city st filename kml_path cleaned fs fs1 fs' c' w Hc He Hbad.
  unfold process_markup.
  rewrite (bind_step _ _ _ _ _ Hc), (bind_step _ _ _ _ _ He).
  unfold bind, get_fs, ret, read_coordinates.
  destruct Hbad as [-> | (data & e & -> & ->)]; reflexivity.
Qed.

End LoopPieces.

(** ** The further properties on the sample batch *)

Lemma X8_table_witness :
  exists groups : list (string * list (row string)),
    List.map fst groups = ["line.kml"; Runs.uuid_name; "a.kmz"]
    /\ Runs.batch_table = List.concat (List.map snd groups).
Proof.
  destruct (X8_table_grouped_by_file (RT := Runs.rt) (P := Runs.proc) 1
              (Some Runs.batch_contents) Runs.batch_filenames
              (Some "Zagreb") (Some " New York ") ∅ Runs.batch_fs _ _ _ _ _
              batch_run) as (groups & Hn & Ht & _).
  exists groups. split; [exact Hn | exact Ht].
Defined.

Lemma X9_map_witness :
  exists fig,
    Runs.batch_map = Some fig
    /\ Forall (fun t => lons t <> [] /\ length (lons t) = length (lats t))
         (traces fig).
Proof.
  destruct (X9_map_points_are_table_rows (RT := Runs.rt) (P := Runs.proc) 1
              (Some Runs.batch_contents) Runs.batch_filenames
              (Some "Zagreb") (Some " New York ") ∅ Runs.batch_fs _ _ _ _ _
              batch_run) as [Hfig _].
  eexists. split; [reflexivity|].
  destruct (Hfig _ eq_refl) as [Hall _].
  eapply Forall_impl; [exact Hall|].
  intros t (H1 & H2 & _). split; [exact H1 | exact H2].
Defined.

Lemma X10_completion_witness :
  exists map_fig zipped,
    process_files (RT := Runs.rt) (P := Runs.proc) 1
      (Some Runs.batch_contents) Runs.batch_filenames
      (Some "Zagreb") (Some " New York ") ∅
    = (Runs.batch_fs,
       Ok (Completed ProcessingComplete
             (String.concat "" (sql_output_all batch_loop_state))
             (all_coords batch_loop_state) map_fig
             {| members := zipped;
                download_name := "New York" ++ "_kml_output.zip" |})).
Proof.
  apply (X10_nothing_fails_after_merge (RT := Runs.rt) (P := Runs.proc) 1
           (Some Runs.batch_contents) Runs.batch_filenames
           (Some "Zagreb") (Some " New York ") "New York"
           ∅ ∅ ∅ batch_loop_fs Runs.batch_fs batch_loop_state).
  - reflexivity.
  - reflexivity.
  - reflexivity.
  - vm_compute. reflexivity.
  - vm_compute. reflexivity.
  - vm_compute. reflexivity.
  - vm_compute. reflexivity.
Defined.

Lemma X11_upper_case_witness :
  dispatched Runs.uuid_name = true
  /\ ~ (exists data, (Runs.uuid_name, data) ∈ members Runs.batch_bundle).
Proof.
  destruct (X11_upper_case_markup_not_bundled (RT := Runs.rt)
              (P := Runs.proc) 1 (Some Runs.batch_contents)
              Runs.batch_filenames (Some "Zagreb") (Some " New York ") ∅
              Runs.batch_fs _ _ _ _ _ Runs.uuid_name batch_run eq_refl)
    as [Hd Hnot].
  - vm_compute. discriminate.
  - split; [exact Hd|]. intros [data Hin]. exact (Hnot data Hin).
Defined.

Lemma X13_bad_number_witness :
  coords_element_step (RT := Runs.rt) "f.kml" ([], [])
    (Element (qname "coordinates") (Some " 15.97,45.80 x,y 1,2 ") [])
  = (([{| lat := "45.80"; lon := "15.97"; file := "f.kml" |}], []),
     Some ValueError).
Proof.
  apply (X13_bad_number_keeps_rows_drops_polygon (RT := Runs.rt) "f.kml"
           [] [] (Element (qname "coordinates")
                    (Some " 15.97,45.80 x,y 1,2 ") [])
           " 15.97,45.80 x,y 1,2 " ["15.97,45.80"] "x,y" ["1,2"]
           [("15.97", "45.80")] "x" "y" ValueError).
  - reflexivity.
  - reflexivity.
  - constructor; [split; reflexivity | constructor].
  - reflexivity.
  - left. reflexivity.
Defined.

Lemma X14_unreadable_document_witness :
  process_markup (RT := Runs.rt) (P := idle_processor) "Zagreb"
    initial_state "line.kml" "kml/line.kml" ∅
  = (∅, Ok {| count := 30000; all_coords := []; polygons := [];
              sql_output_all := [""] |}).
Proof.
  apply (X14_unreadable_document_is_skipped_for_the_table (RT := Runs.rt)
           (P := idle_processor) "Zagreb" initial_state "line.kml"
           "kml/line.kml" "kml/absent.kml" ∅ ∅ ∅ 30000 []).
  - reflexivity.
  - reflexivity.
  - left. reflexivity.
Defined.
